(** * leveelogic: cross-section geometry, landmark registry, phreatic line
      and berm construction

    A shallow embedding of [leveelogic/deltares/dstability.py],
    [leveelogic/deltares/algorithms/algorithm_phreatic_line.py] and
    [leveelogic/deltares/algorithms/algorithm_berm_wsbd.py].

    Conventions of the embedding:
    - a Python [float] that is a coordinate of the geometry is a rational
      [Q], compared with [Qeq_bool], [Qle_bool] (Python's [==], [<=]);
      rounding error of binary floating point is not modelled: sums,
      products and quotients are exact, so that a statement about the
      value of an arithmetic result is a statement about the exact value,
      while a statement that rests on comparisons of stored coordinates, on
      the order of the steps or on the exception raised is a statement
      about the program as it runs;
    - the model holds the layers of one stage: [Layers] stands for the
      layers that [z_at] reads (first scenario, first stage) and for the
      layers of the current stage alike;
    - a [float] that the source tests with [isnan] (waternet creator
      settings, landmark coordinates) is a [pyfloat], [NaN] or a number;
    - an exception is a value of [exn]; code that can raise returns a
      [pyresult];
    - objects that are deep-copied and mutated ([DStability]) live in a
      store ([heap]) and are handled through references. *)

From Stdlib Require Import QArith Qround Qabs Lqa List String Bool ZArith Lia.
From Stdlib Require Import Sorted Permutation DecimalString SetoidList.
From stdpp Require Import gmap.
Import ListNotations.
Local Open Scope Q_scope.

(** ** Floats and comparisons *)

Inductive pyfloat :=
| NaN
| Num (q : Q).

Definition isnan (f : pyfloat) : bool :=
  match f with NaN => true | Num _ => false end.

Definition Qlt_bool (a b : Q) : bool := negb (Qle_bool b a).

(** Arithmetic of floats: [NaN] is absorbing, comparisons with [NaN] are
    false. *)
Definition flift2 (op : Q -> Q -> Q) (a b : pyfloat) : pyfloat :=
  match a, b with
  | Num x, Num y => Num (op x y)
  | _, _ => NaN
  end.

Definition fadd := flift2 Qplus.
Definition fsub := flift2 Qminus.
Definition fmul := flift2 Qmult.

Definition fcmp (c : Q -> Q -> bool) (a b : pyfloat) : bool :=
  match a, b with
  | Num x, Num y => c x y
  | _, _ => false
  end.

Definition flt := fcmp Qlt_bool.
Definition fle := fcmp Qle_bool.
Definition fgt (a b : pyfloat) := flt b a.

(** [round(x, 3)]: the nearest multiple of 1/1000 of the exact value, ties
    to the even one. The program rounds the binary double, which seldom
    stands at a tie (0.0025 is stored above it and rounds to 0.003): at and
    next to the decimal ties the two can differ. *)
Definition round_half_even (q : Q) : Z :=
  let f := Qfloor q in
  match Qcompare (q - inject_Z f) (1 # 2) with
  | Lt => f
  | Gt => (f + 1)%Z
  | Eq => if Z.even f then f else (f + 1)%Z
  end.

Definition round3 (q : Q) : Q := Qred (Qmake (round_half_even (q * 1000)) 1000).

(** ** Points and polylines: [(x, z)] tuples *)

Definition Point : Type := Q * Q.

Definition point_eqb (p q : Point) : bool :=
  Qeq_bool (fst p) (fst q) && Qeq_bool (snd p) (snd q).

Definition round_point (p : Point) : Point := (round3 (fst p), round3 (snd p)).

(** [p in l] for a list of tuples. *)
Definition point_in (p : Point) (l : list Point) : bool := existsb (point_eqb p) l.

(** ** Exceptions *)

Inductive message :=
| Msg (s : string)
| MsgFloat (before : string) (value : Q) (after : string).

Inductive exn :=
| AlgorithmInputCheckError (m : message)
| AlgorithmExecutionError (m : message)
| ValueError (m : message)
| AttributeError (type_name attribute : string)
| TypeError (m : message)
| IndexError (m : message)
| ZeroDivisionError
| NotImplementedError.

Inductive pyresult (A : Type) :=
| Ok (a : A)
| Raise (e : exn).

Arguments Ok {A} a.
Arguments Raise {A} e.

Definition bind {A B : Type} (m : pyresult A) (k : A -> pyresult B) : pyresult B :=
  match m with
  | Ok a => k a
  | Raise e => Raise e
  end.

Notation "'let*' x ':=' m 'in' k" := (bind m (fun x => k))
  (at level 10, x pattern, m at level 100, k at level 200).

(** [a / b] on floats raises when [b] is zero. *)
Definition py_div (a b : Q) : pyresult Q :=
  if Qeq_bool b 0 then Raise ZeroDivisionError else Ok (a / b).

Definition fdiv (a b : pyfloat) : pyresult pyfloat :=
  match b with
  | NaN => Ok NaN
  | Num y =>
      if Qeq_bool y 0 then Raise ZeroDivisionError
      else Ok (match a with NaN => NaN | Num x => Num (x / y) end)
  end.

(** [min(l)] and [max(l)]: the first smallest (largest) element; they raise
    [ValueError] on an empty list. *)
Definition Qmin_list (l : list Q) : pyresult Q :=
  match l with
  | [] => Raise (ValueError (Msg "min() arg is an empty sequence"))
  | a :: rest => Ok (fold_left (fun m x => if Qlt_bool x m then x else m) rest a)
  end.

Definition Qmax_list (l : list Q) : pyresult Q :=
  match l with
  | [] => Raise (ValueError (Msg "max() arg is an empty sequence"))
  | a :: rest => Ok (fold_left (fun m x => if Qlt_bool m x then x else m) rest a)
  end.

(** [l[0]] and [l[-1]]. *)
Definition first_item {A : Type} (l : list A) : pyresult A :=
  match l with
  | [] => Raise (IndexError (Msg "list index out of range"))
  | a :: _ => Ok a
  end.

Definition last_item {A : Type} (l : list A) : pyresult A :=
  match rev l with
  | [] => Raise (IndexError (Msg "list index out of range"))
  | a :: _ => Ok a
  end.

(** ** The landmark registry *)

(** Modelled from the spec: the enumeration [CharacteristicPointType] is
    declared in [leveelogic/geometry/characteristic_point.py], which is not
    among the sources. Its members are the names the sources use and the
    ditch landmarks of spec section 3; they are pairwise different. *)
Inductive CharacteristicPointType :=
| NONE
| TOE_LEFT
| CREST_LEFT
| REFERENCE_POINT
| CREST_RIGHT
| TOE_RIGHT
| START_POLDER
| START_SURFACE
| END_SURFACE
| EMBANKEMENT_TOE_WATER_SIDE
| EMBANKEMENT_TOP_WATER_SIDE
| EMBANKEMENT_TOP_LAND_SIDE
| SHOULDER_BASE_LAND_SIDE
| EMBANKEMENT_TOE_LAND_SIDE
| DITCH_EMBANKEMENT_SIDE
| DITCH_BOTTOM_EMBANKEMENT_SIDE
| DITCH_BOTTOM_LAND_SIDE
| DITCH_LAND_SIDE.

#[global] Instance CharacteristicPointType_eq_dec : EqDecision CharacteristicPointType.
Proof. solve_decision. Defined.

Record CharacteristicPoint := mkCharacteristicPoint {
  x : pyfloat;
  point_type : CharacteristicPointType
}.

(** Modelled from the spec: the property [is_valid] of the class
    [CharacteristicPoint] (same missing file): a landmark is valid when its
    coordinate is a number (spec sections 4.3 and 4.4). *)
Definition is_valid (cp : CharacteristicPoint) : bool := negb (isnan (x cp)).

(** The values a dynamically typed expression of the sources can have. *)
Inductive pyval :=
| VNone
| VFloat (f : pyfloat)
| VFloatList (zs : list Q)
| VCharPoint (cp : CharacteristicPoint)
| VCharPointList (cps : list CharacteristicPoint).

Definition type_name (v : pyval) : string :=
  match v with
  | VNone => "NoneType"
  | VFloat _ => "float"
  | VFloatList _ | VCharPointList _ => "list"
  | VCharPoint _ => "CharacteristicPoint"
  end.

(** [v.x] and [v.is_valid]. *)
Definition getattr_x (v : pyval) : pyresult pyfloat :=
  match v with
  | VCharPoint cp => Ok (x cp)
  | _ => Raise (AttributeError (type_name v) "x")
  end.

Definition getattr_is_valid (v : pyval) : pyresult bool :=
  match v with
  | VCharPoint cp => Ok (is_valid cp)
  | _ => Raise (AttributeError (type_name v) "is_valid")
  end.

(** [a - b]: defined on two floats only. *)
Definition py_sub (a b : pyval) : pyresult pyval :=
  match a, b with
  | VFloat u, VFloat v => Ok (VFloat (fsub u v))
  | _, _ =>
      Raise (TypeError (Msg ("unsupported operand type(s) for -: '" ++ type_name a
                             ++ "' and '" ++ type_name b ++ "'")))
  end.

Definition as_float (v : pyval) : pyresult pyfloat :=
  match v with
  | VFloat f => Ok f
  | _ => Raise (TypeError (Msg ("a float is required, not '" ++ type_name v ++ "'")))
  end.

(** ** The cross-section *)

Record Layer := mkLayer {
  Points : list Point;
  layer_soilcode : option string;
  Label : option string
}.

Record EmbankmentCharacteristics_t := mkEmbankmentCharacteristics {
  EmbankmentToeLandSide : pyfloat
}.

Record DitchCharacteristics_t := mkDitchCharacteristics {
  DitchEmbankmentSide : pyfloat;
  DitchLandSide : pyfloat
}.

Record WaternetCreatorSettings := mkWaternetCreatorSettings {
  EmbankmentCharacteristics : EmbankmentCharacteristics_t;
  DitchCharacteristics : DitchCharacteristics_t
}.

Record HeadLine := mkHeadLine {
  hl_label : string;
  hl_points : list (pyfloat * pyfloat);
  is_phreatic_line : bool
}.

(** The fields of [DStability] the algorithms read or write. [Layers] is
    the geometry of the current stage ([model._get_geometry(..).Layers]),
    [soils] the codes of the soil catalogue, [HeadLines] the head lines of
    the model's waternet. *)
Record DStability := mkDStability {
  characteristic_points : list CharacteristicPoint;
  Layers : list Layer;
  soils : list string;
  waternetcreatorsettings : list WaternetCreatorSettings;
  HeadLines : list HeadLine;
  points : list Point;
  boundary : list Point;
  surface : list Point
}.

Definition singular_types : list CharacteristicPointType :=
  [TOE_LEFT; CREST_LEFT; REFERENCE_POINT; CREST_RIGHT; TOE_RIGHT;
   START_POLDER; START_SURFACE; END_SURFACE].

(** The [for cp in ...: if ...: result = cp; break] loop. *)
Fixpoint first_of_type (t : CharacteristicPointType) (cps : list CharacteristicPoint) : pyval :=
  match cps with
  | [] => VNone
  | cp :: rest =>
      if decide (point_type cp = t) then VCharPoint cp else first_of_type t rest
  end.

Definition get_characteristic_point (ds : DStability) (t : CharacteristicPointType) : pyval :=
  if decide (t ∈ singular_types) then first_of_type t (characteristic_points ds)
  else
    match filter (fun cp => point_type cp = t) (characteristic_points ds) with
    | [] => VNone
    | result => VCharPointList result
    end.

(** ** Properties and queries of [DStability] *)

Definition left (ds : DStability) : pyresult Q := Qmin_list (map fst (points ds)).
Definition right (ds : DStability) : pyresult Q := Qmax_list (map fst (points ds)).

Definition surface_points_between (ds : DStability) (left right : Q) : list Point :=
  List.filter (fun p => Qle_bool left (fst p) && Qle_bool (fst p) right) (surface ds).

Definition has_soilcode (ds : DStability) (soilcode : string) : bool :=
  existsb (String.eqb soilcode) (soils ds).

Definition py_min2 (a b : Q) : Q := if Qlt_bool b a then b else a.
Definition py_max2 (a b : Q) : Q := if Qlt_bool a b then b else a.

(** The inner loop of [z_at] over one layer: [i] runs over
    [range(1, len(layer.Points))], so the test [i == len(layer.Points)] never
    holds and the edge from the last point back to the first is not
    visited. *)
Fixpoint z_at_layer (x : Q) (pts : list Point) : list Q :=
  match pts with
  | p1 :: ((p2 :: _) as rest) =>
      (if Qle_bool (py_min2 (fst p1) (fst p2)) x && Qle_bool x (py_max2 (fst p1) (fst p2))
       then
         [if Qeq_bool (fst p1) (fst p2) then snd p1
          else snd p1 + (x - fst p1) / (fst p2 - fst p1) * (snd p2 - snd p1)]
       else [])
      ++ z_at_layer x rest
  | _ => []
  end.

(** [for r in zs: if not r in result: result.append(r)] *)
Definition unique_floats (zs : list Q) : list Q :=
  fold_left (fun result r => if existsb (Qeq_bool r) result then result else result ++ [r])
            zs [].

Fixpoint insert_descending (z : Q) (l : list Q) : list Q :=
  match l with
  | [] => [z]
  | y :: rest => if Qle_bool y z then z :: l else y :: insert_descending z rest
  end.

(** [sorted(l, reverse=True)] *)
Definition sorted_descending (l : list Q) : list Q := fold_right insert_descending [] l.

(** [z_at(x)]; with [x] not a number every comparison fails and the result
    is empty. *)
Definition z_at (ds : DStability) (x : pyfloat) : list Q :=
  match x with
  | NaN => []
  | Num x =>
      sorted_descending (unique_floats (flat_map (fun layer => z_at_layer x (Points layer)) (Layers ds)))
  end.

(** [set_phreatic_line]: the head line is added to the model and marked as
    the phreatic line; an older one stays in the model. *)
Definition set_phreatic_line (ds : DStability) (pts : list (pyfloat * pyfloat)) : DStability :=
  mkDStability (characteristic_points ds) (Layers ds) (soils ds) (waternetcreatorsettings ds)
    (HeadLines ds ++ [mkHeadLine "Phreatic line" pts true])
    (points ds) (boundary ds) (surface ds).

(** ** Boundary and surface ([_post_process]) *)

(** [sorted(l, key=lambda x: x[1])]: a stable sort on z. *)
Fixpoint insert_by_z (p : Point) (l : list Point) : list Point :=
  match l with
  | [] => [p]
  | q :: rest => if Qle_bool (snd p) (snd q) then p :: l else q :: insert_by_z p rest
  end.

Definition sorted_by_z (l : list Point) : list Point := fold_right insert_by_z [] l.

(** [l.index(p)] *)
Fixpoint index (l : list Point) (p : Point) : pyresult nat :=
  match l with
  | [] => Raise (ValueError (Msg "x is not in list"))
  | q :: rest =>
      if point_eqb q p then Ok 0%nat
      else let* i := index rest p in Ok (S i)
  end.

(** The surface as [_post_process] reads it off [self.boundary]. *)
Definition surface_of_boundary (boundary : list Point) : pyresult (list Point) :=
  let* left := Qmin_list (map fst boundary) in
  let* topleft_point :=
    last_item (sorted_by_z (List.filter (fun p => Qeq_bool (fst p) left) boundary)) in
  let* right := Qmax_list (map fst boundary) in
  let* rightmost_point :=
    last_item (sorted_by_z (List.filter (fun p => Qeq_bool (fst p) right) boundary)) in
  let* idx_left := index boundary topleft_point in
  let surface := skipn idx_left boundary ++ firstn idx_left boundary in
  let* idx_right := index surface rightmost_point in
  Ok (firstn (idx_right + 1) surface).

(** [_post_process], the geometric part. [exterior] is the coordinate
    sequence [boundary.exterior.coords] of
    [orient(unary_union(polygons), sign=-1)], computed by the polygon
    library: a closed ring whose last point repeats the first. *)
Definition _post_process (exterior : list Point) (ds : DStability) : pyresult DStability :=
  let points := flat_map Points (Layers ds) in
  let boundary := map round_point (removelast exterior) in
  let* surface := surface_of_boundary boundary in
  Ok (mkDStability (characteristic_points ds) (Layers ds) (soils ds)
        (waternetcreatorsettings ds) (HeadLines ds) points boundary surface).

(** ** Collaborators that are not among the sources *)

(** Modelled from the spec: the enumeration [MaterialLayoutType] that
    [algorithm_phreatic_line.py] imports is not among the sources; its
    members are the four layouts of spec section 3. *)
Inductive MaterialLayoutType :=
| CLAY_EMBANKEMENT_ON_CLAY
| CLAY_EMBANKEMENT_ON_SAND
| SAND_EMBANKEMENT_ON_CLAY
| SAND_EMBANKEMENT_ON_SAND.

(** The helpers of [leveelogic/helpers.py] and the members of [DStability]
    that the algorithms call but that the sources do not contain. The
    algorithms are embedded over any implementation of them: the
    intersection routines are functions of their arguments,
    [get_closest_point_from_x], [material_layout] and [ditch_points] read
    the object they are called on, [add_layer] changes that object only. *)
Class Collaborators := {
  polyline_polyline_intersections : list Point -> list Point -> list Point;
  line_polyline_intersections : Q -> Q -> Q -> Q -> list Point -> list Point;
  get_closest_point_from_x : DStability -> pyfloat -> pyresult Point;
  add_layer : DStability -> list Point -> option string -> option string -> pyresult DStability;
  material_layout : DStability -> MaterialLayoutType;
  ditch_points : DStability -> list Point
}.

Definition surface_intersections `{Collaborators} (ds : DStability) (polyline : list Point)
  : list Point :=
  polyline_polyline_intersections polyline (surface ds).

(** ** The object store *)

Definition loc := positive.
Abbreviation heap := (gmap loc DStability).

(** A computation over a state [S] that may raise; the state as it is when
    the exception is raised is part of the outcome. *)
Definition StateErr (S A : Type) : Type := S -> pyresult A * S.

Definition ret {S A : Type} (a : A) : StateErr S A := fun s => (Ok a, s).

Definition raise {S A : Type} (e : exn) : StateErr S A := fun s => (Raise e, s).

Definition bindM {S A B : Type} (m : StateErr S A) (k : A -> StateErr S B) : StateErr S B :=
  fun s =>
    match m s with
    | (Ok a, s') => k a s'
    | (Raise e, s') => (Raise e, s')
    end.

Notation "'do*' x ':=' m 'in' k" := (bindM m (fun x => k))
  (at level 10, x pattern, m at level 100, k at level 200).

Definition lift {S A : Type} (r : pyresult A) : StateErr S A := fun s => (r, s).

Definition get {S : Type} : StateErr S S := fun s => (Ok s, s).

Definition modify {S : Type} (f : S -> S) : StateErr S unit := fun s => (Ok tt, f s).

(** Computations on the store. *)
Abbreviation M := (StateErr heap).

(** A reference that is not in the store: this does not happen in Python,
    the computation stops. *)
Definition dangling {A : Type} : M A :=
  raise (ValueError (Msg "reference not in the store")).

(** Reading the object behind a reference. *)
Definition read (r : loc) : M DStability :=
  fun h =>
    match h !! r with
    | Some d => (Ok d, h)
    | None => dangling h
    end.

(** Mutating the object behind a reference in place. *)
Definition write (r : loc) (d : DStability) : M unit :=
  fun h => (Ok tt, <[r := d]> h).

(** [deepcopy(r)]: a new object at a reference not in use, equal in value
    to the one at [r] and sharing nothing with it. *)
Definition deepcopy (r : loc) : M loc :=
  fun h =>
    match h !! r with
    | Some d => let r' := fresh (dom h) in (Ok r', <[r' := d]> h)
    | None => dangling h
    end.

(** [m] leaves the object at [r] as it is, whatever its outcome. *)
Definition preserves {A : Type} (r : loc) (m : M A) : Prop :=
  forall h : heap, snd (m h) !! r = h !! r.

(** When [m] returns, it returns [a]. *)
Definition returns {A : Type} (a : A) (m : M A) : Prop :=
  forall (h h' : heap) (a' : A), m h = (Ok a', h') -> a' = a.

(** [p] is the highest of the points of [b] with the smallest x. *)
Definition topmost_leftmost (p : Point) (b : list Point) : Prop :=
  In p b /\ forall q, In q b -> fst p <= fst q /\ (fst q == fst p -> snd q <= snd p).

(** [p] is the highest of the points of [b] with the largest x. *)
Definition topmost_rightmost (p : Point) (b : list Point) : Prop :=
  In p b /\ forall q, In q b -> fst q <= fst p /\ (fst q == fst p -> snd q <= snd p).

(** A polyline whose x does not decrease along it. *)
Definition x_sorted (l : list Point) : Prop :=
  StronglySorted (fun p q => fst p <= fst q) l.

(** The consecutive pairs [(l[0], l[1]), (l[2], l[3]), ..] of a list. *)
Fixpoint pairs (l : list Point) : list (Point * Point) :=
  match l with
  | p1 :: p2 :: rest => (p1, p2) :: pairs rest
  | _ => []
  end.

(** ** [AlgorithmPhreaticLine] *)

Module AlgorithmPhreaticLine.

Record t := mk {
  river_level : Q;
  polder_level : Q;
  B_offset : Q;
  C_offset : Q;
  E_offset : Q;
  D_offset : option Q;
  surface_offset : Q
}.

(** A point of the line: a tuple (immutable) or a two-element list. *)
Inductive seqkind := TupleSeq | ListSeq.

Definition plpoint : Type := seqkind * (pyfloat * pyfloat).

Definition px (p : plpoint) : pyfloat := fst (snd p).
Definition pz (p : plpoint) : pyfloat := snd (snd p).

Definition of_point (k : seqkind) (p : Point) : plpoint := (k, (Num (fst p), Num (snd p))).

Section WithCollaborators.
Context `{Collaborators}.

Definition _check_input (ds : DStability) : pyresult bool :=
  let* v := getattr_is_valid (get_characteristic_point ds EMBANKEMENT_TOP_WATER_SIDE) in
  if negb v then
    Raise (AlgorithmInputCheckError (Msg
      "The point for the embankment top waterside is not defined in the Waternet creator settings."))
  else
  let* v := getattr_is_valid (get_characteristic_point ds EMBANKEMENT_TOP_LAND_SIDE) in
  if negb v then
    Raise (AlgorithmInputCheckError (Msg
      "The point for the embankment top landside is not defined in the Waternet creator settings."))
  else
  let* v := getattr_is_valid (get_characteristic_point ds EMBANKEMENT_TOE_LAND_SIDE) in
  if negb v then
    Raise (AlgorithmInputCheckError (Msg
      "The point for the embankment toe landside is not defined in the Waternet creator settings."))
  else
  let* v := getattr_is_valid (get_characteristic_point ds EMBANKEMENT_TOE_WATER_SIDE) in
  if negb v then
    Raise (AlgorithmInputCheckError (Msg
      "The point for the embankment toe waterside is not defined in the Waternet creator settings."))
  else Ok true.

Definition _execute_sand_on_sand_layout (self : t) (ds : DStability) : pyresult (list plpoint) :=
  Raise NotImplementedError.

(** Point A: the first intersection of the river level with the surface. *)
Definition point_A (self : t) (ds : DStability) : pyresult Point :=
  let* l := left ds in
  let* r := right ds in
  let intersections :=
    line_polyline_intersections l (river_level self) r (river_level self) (surface ds) in
  match intersections with
  | [] =>
      Raise (AlgorithmExecutionError (MsgFloat
        "No intersection with the surface and the given river level (" (river_level self)
        ") found."))
  | a :: _ => Ok a
  end.

(** Point B: one to the right of A and [B_offset] below it. *)
Definition point_B (self : t) (A : Point) : Point := (fst A + 1, snd A - B_offset self).

(** [ds.z_at(x) - offset]: [z_at] returns a list. *)
Definition z_at_minus (ds : DStability) (x : pyfloat) (offset : Q) : pyresult pyfloat :=
  let* v := py_sub (VFloatList (z_at ds x)) (VFloat (Num offset)) in
  as_float v.

(** The x of point D: the shoulder if it is valid, else the middle of C
    and E. *)
Definition shoulder_x (ds : DStability) (Cx Ex : pyfloat) : pyresult pyfloat :=
  let shoulder_point := get_characteristic_point ds SHOULDER_BASE_LAND_SIDE in
  let* v := getattr_is_valid shoulder_point in
  if v then getattr_x shoulder_point
  else fdiv (fadd Ex Cx) (Num 2).

Definition interpolate (p1 p2 : pyfloat * pyfloat) (x : pyfloat) : pyresult pyfloat :=
  let* q := fdiv (fsub x (fst p1)) (fsub (fst p2) (fst p1)) in
  Ok (fadd (snd p1) (fmul q (fsub (snd p2) (snd p1)))).

(** Point F: the line D-E extended to the polder level, kept left of the
    right limit, or the intersection with the ditch. *)
Definition point_F (self : t) (ds : DStability) (D E : pyfloat * pyfloat)
  : pyresult (pyfloat * pyfloat) :=
  let Fz := Num (polder_level self) in
  let* q := fdiv (fmul (fsub (snd E) Fz) (fsub (fst E) (fst D))) (fsub (snd E) (snd D)) in
  let Fx := fadd (fst E) q in
  let* r := right ds in
  let F := if fgt Fx (Num r) then (Num (r - (1 # 100)), Num (polder_level self))
           else (Fx, Fz) in
  if (0 <? length (ditch_points ds))%nat then
    let* l := left ds in
    let* r := right ds in
    let intersections :=
      line_polyline_intersections l (polder_level self) r (polder_level self) (ditch_points ds) in
    match intersections with
    | [] => Ok F
    | p :: _ => Ok (Num (fst p), Num (snd p))
    end
  else Ok F.

Definition _execute_clay_layout (self : t) (ds : DStability) : pyresult (list plpoint) :=
  let* A := point_A self ds in
  let B := point_B self A in
  let* Cx := getattr_x (get_characteristic_point ds EMBANKEMENT_TOP_LAND_SIDE) in
  let Cz := Num (snd A - C_offset self) in
  let* Ex := getattr_x (get_characteristic_point ds EMBANKEMENT_TOE_LAND_SIDE) in
  let* Ez := z_at_minus ds Ex (E_offset self) in
  let* Dx := shoulder_x ds Cx Ex in
  let* Dz := match D_offset self with
             | None => interpolate (Cx, Cz) (Ex, Ez) Dx
             | Some d_offset => z_at_minus ds Dx d_offset
             end in
  let* F := point_F self ds (Dx, Dz) (Ex, Ez) in
  Ok [of_point TupleSeq A; of_point TupleSeq B; (TupleSeq, (Cx, Cz)); (TupleSeq, (Dx, Dz));
      (TupleSeq, (Ex, Ez)); (TupleSeq, F)].

Definition _execute_sand_on_clay_layout (self : t) (ds : DStability) : pyresult (list plpoint) :=
  let* A := point_A self ds in
  let Ax := Num (fst A) in
  let Az := Num (snd A) in
  let Bx := Ax in
  let* px := getattr_x (get_characteristic_point ds EMBANKEMENT_TOE_WATER_SIDE) in
  let* v := py_sub (VFloat Az) (VFloatList (z_at ds px)) in
  let* d := as_float v in
  let Bz := fsub Az (fmul (Num (1 # 2)) d) in
  let* Ex := getattr_x (get_characteristic_point ds EMBANKEMENT_TOE_LAND_SIDE) in
  let* Ez := z_at_minus ds Ex (E_offset self) in
  let Ez := fadd Ez (fmul (Num (1 # 4)) (fsub Az Ez)) in
  let* Cx := getattr_x (get_characteristic_point ds EMBANKEMENT_TOP_LAND_SIDE) in
  let* Cz := interpolate (Bx, Bz) (Ex, Ez) Cx in
  let* Dx := shoulder_x ds Cx Ex in
  let* Dz := interpolate (Cx, Cz) (Ex, Ez) Dx in
  let* F := point_F self ds (Dx, Dz) (Ex, Ez) in
  Ok [(ListSeq, (Ax, Az)); (ListSeq, (Bx, Bz)); (ListSeq, (Cx, Cz)); (ListSeq, (Dx, Dz));
      (ListSeq, (Ex, Ez)); (ListSeq, F)].

(** The surface points strictly between two control points, placed on the
    segment between them. *)
Fixpoint between_points (p1 p2 : plpoint) (surface : list Point) : pyresult (list plpoint) :=
  match surface with
  | [] => Ok []
  | p :: rest =>
      let* here :=
        (if flt (px p1) (Num (fst p)) && flt (Num (fst p)) (px p2) then
           let* z_interpolated := interpolate (snd p1) (snd p2) (Num (fst p)) in
           Ok [(ListSeq, (Num (fst p), z_interpolated))]
         else Ok []) in
      let* tail := between_points p1 p2 rest in
      Ok (here ++ tail)
  end.

(** The loop [for i in range(2, len(abcdef) - 1)], applied to [abcdef[2:]]. *)
Fixpoint insert_surface_points (surface : list Point) (cdef : list plpoint)
  : pyresult (list plpoint) :=
  match cdef with
  | p1 :: ((p2 :: rest') as rest) =>
      let* between := between_points p1 p2 surface in
      let* tail := match rest' with
                   | [] => Ok [p2]
                   | _ => insert_surface_points surface rest
                   end in
      Ok (p1 :: between ++ tail)
  | _ => Ok []
  end.

(** [p[1] = z] *)
Definition set_z (p : plpoint) (z : pyfloat) : pyresult plpoint :=
  match fst p with
  | TupleSeq => Raise (TypeError (Msg "'tuple' object does not support item assignment"))
  | ListSeq => Ok (ListSeq, (px p, z))
  end.

Definition check_height (self : t) (ds : DStability) (Cx Fx : pyfloat)
  (previous : option plpoint) (p : plpoint) : pyresult plpoint :=
  if fgt (px p) Cx && fle (px p) Fx then
    let* limit := z_at_minus ds (px p) (surface_offset self) in
    let* p := (if fgt (pz p) limit then set_z p limit else Ok p) in
    match previous with
    | Some q => if fgt (pz p) (pz q) then set_z p (pz q) else Ok p
    | None => Ok p
    end
  else Ok p.

(** The loop [for i in range(len(plpoints))]. The control points among
    [plpoints] are the objects of [abcdef]; the loop changes their z only
    and reads the x of [abcdef[2]] and [abcdef[-1]] only. *)
Fixpoint check_heights (self : t) (ds : DStability) (Cx Fx : pyfloat)
  (previous : option plpoint) (plpoints : list plpoint) : pyresult (list plpoint) :=
  match plpoints with
  | [] => Ok []
  | p :: rest =>
      let* p' := check_height self ds Cx Fx previous p in
      let* tail := check_heights self ds Cx Fx (Some p') rest in
      Ok (p' :: tail)
  end.

Definition nth_item {A : Type} (l : list A) (i : nat) : pyresult A :=
  match nth_error l i with
  | Some a => Ok a
  | None => Raise (IndexError (Msg "list index out of range"))
  end.

(** The points handed to [set_phreatic_line]. *)
Definition phreatic_line_points (self : t) (ds : DStability) : pyresult (list plpoint) :=
  let* abcdef :=
    match material_layout ds with
    | CLAY_EMBANKEMENT_ON_CLAY | CLAY_EMBANKEMENT_ON_SAND => _execute_clay_layout self ds
    | SAND_EMBANKEMENT_ON_CLAY => _execute_sand_on_clay_layout self ds
    | SAND_EMBANKEMENT_ON_SAND => _execute_sand_on_sand_layout self ds
    end in
  let* l := left ds in
  let plpoints := (ListSeq, (Num l, Num (river_level self))) :: firstn 2 abcdef in
  let* inserted := insert_surface_points (surface ds) (skipn 2 abcdef) in
  let plpoints := plpoints ++ inserted in
  let* C := nth_item abcdef 2 in
  let* F := last_item abcdef in
  let* plpoints := check_heights self ds (px C) (px F) None plpoints in
  let* r := right ds in
  Ok (plpoints ++ [(ListSeq, (Num r, Num (polder_level self)))]).

(** [self_ds] is the reference held in [self.ds]; the result is the
    reference of the copy. *)
Definition _execute (self : t) (self_ds : loc) : M loc :=
  do* ds := deepcopy self_ds in
  do* d := read ds in
  do* plpoints := lift (phreatic_line_points self d) in
  do* _ := write ds (set_phreatic_line d (map snd plpoints)) in
  ret ds.

End WithCollaborators.
End AlgorithmPhreaticLine.

(** ** [AlgorithmBermWSBD] *)

Module AlgorithmBermWSBD.

Record t := mk {
  soilcode : string;
  slope_top : Q;
  slope_bottom : Q;
  width : Q;
  height : Q;
  fill_ditch : bool;
  ditch_soilcode : option string;
  embankement_toe_land_side : pyfloat;
  ditch_embankement_side : pyfloat;
  ditch_land_side : pyfloat
}.

Definition set_embankement_toe_land_side (v : pyfloat) (self : t) : t :=
  mk (soilcode self) (slope_top self) (slope_bottom self) (width self) (height self)
     (fill_ditch self) (ditch_soilcode self) v (ditch_embankement_side self)
     (ditch_land_side self).

Definition set_ditch_embankement_side (v : pyfloat) (self : t) : t :=
  mk (soilcode self) (slope_top self) (slope_bottom self) (width self) (height self)
     (fill_ditch self) (ditch_soilcode self) (embankement_toe_land_side self) v
     (ditch_land_side self).

Definition set_ditch_land_side (v : pyfloat) (self : t) : t :=
  mk (soilcode self) (slope_top self) (slope_bottom self) (width self) (height self)
     (fill_ditch self) (ditch_soilcode self) (embankement_toe_land_side self)
     (ditch_embankement_side self) v.

(** [_check_input] reads the cross-section [ds] and stores what it reads in
    the fields of [self], the state of the computation. *)
Definition _check_input (ds : DStability) : StateErr t unit :=
  do* self := get in
  do* _ :=
    (if Qlt_bool 0 (width self) && Qlt_bool 0 (height self) then
       do* _ :=
         (if negb (has_soilcode ds (soilcode self)) then
            raise (AlgorithmInputCheckError (Msg
              ("AlgorithmBermWSBD got an invalid soilcode '" ++ soilcode self ++ "'")))
          else ret tt) in
       do* settings := lift (first_item (waternetcreatorsettings ds)) in
       do* _ := modify (set_embankement_toe_land_side
                          (EmbankmentToeLandSide (EmbankmentCharacteristics settings))) in
       do* self := get in
       if isnan (embankement_toe_land_side self) then
         raise (AlgorithmInputCheckError (Msg
           "The given stix file has no waternet creator settings where the embankement toe land side point is set which is required for this algorithm to run."))
       else ret tt
     else ret tt) in
  do* settings := lift (first_item (waternetcreatorsettings ds)) in
  do* _ := modify (set_ditch_embankement_side
                     (DitchEmbankmentSide (DitchCharacteristics settings))) in
  do* settings := lift (first_item (waternetcreatorsettings ds)) in
  do* _ := modify (set_ditch_land_side (DitchLandSide (DitchCharacteristics settings))) in
  do* self := get in
  if fill_ditch self then
    if isnan (ditch_embankement_side self) || isnan (ditch_land_side self) then
      raise (AlgorithmInputCheckError (Msg
        "Cannot fill the ditch since the ditch embankement side and/or the ditch land side points are missing."))
    else
      match ditch_soilcode self with
      | None =>
          raise (AlgorithmInputCheckError (Msg
            "Cannot fill the ditch since the ditch soilcode is not set."))
      | Some code =>
          if negb (has_soilcode ds code) then
            raise (AlgorithmInputCheckError (Msg
              ("Cannot fill the ditch since the ditch soilcode ('" ++ code ++ "') is not valid.")))
          else ret tt
      end
  else ret tt.

(** [[fp1, fp2] + surface_points_between(fp1[0], fp2[0])[::-1]] *)
Definition ditch_fill_points (ds : DStability) (fp1 fp2 : Point) : list Point :=
  [fp1; fp2] ++ rev (surface_points_between ds (fst fp1) (fst fp2)).

(** The points of the layer between two intersections: the pair, the kink
    [pB] when it lies between them, and the surface back to [p1]. *)
Definition layer_points (ds : DStability) (pB p1 p2 : Point) : list Point :=
  (if Qlt_bool (fst p1) (fst pB) && Qlt_bool (fst pB) (fst p2) then [p1; pB; p2]
   else [p1; p2])
  ++ rev (surface_points_between ds (fst p1) (fst p2)).

Section WithCollaborators.
Context `{Collaborators}.

(** [ds.add_layer(..)] on the object behind a reference. *)
Definition add_layer_at (r : loc) (pts : list Point) (code label : option string) : M unit :=
  do* d := read r in
  do* d' := lift (add_layer d pts code label) in
  write r d'.

(** The toe [p1], the toe raised by the height [p2], and the top line of the
    berm from the left limit [p3] to the right limit [p4]. *)
Definition top_line (self : t) (ds : DStability) : pyresult (Point * Point * Point * Point) :=
  match embankement_toe_land_side self with
  | NaN =>
      (* [ds.z_at(nan)] is the empty list and [[0]] raises *)
      Raise (IndexError (Msg "list index out of range"))
  | Num toe =>
      let* z := first_item (z_at ds (Num toe)) in
      let p1 := (toe, z) in
      let p2 := (toe, snd p1 + height self) in
      let* l := left ds in
      let* q := py_div (toe - l) (slope_top self) in
      let p3 := (l, snd p2 + q) in
      let* r := right ds in
      let* q := py_div (r - toe) (slope_top self) in
      let p4 := (r, snd p2 - q) in
      Ok (p1, p2, p3, p4)
  end.

Definition left_intersections (ds : DStability) (p1 p3 p4 : Point) : list Point :=
  List.filter (fun p => Qlt_bool (fst p) (fst p1))
    (polyline_polyline_intersections [p3; p4] (surface ds)).

(** The start of the berm. *)
Definition point_A (self : t) (ds : DStability) : pyresult Point :=
  let* (p1, p2, p3, p4) := top_line self ds in
  if (length (left_intersections ds p1 p3 p4) =? 0)%nat then
    Raise (ValueError (Msg "No intersections on the left side of x_toe, can not create a berm"))
  else last_item (left_intersections ds p1 p3 p4).

(** [pA], [pB], [pC] and the rounded intersections of the berm with the
    surface, [pA] and [pC] put back when they are not among them. *)
Definition berm_points (self : t) (ds : DStability)
  : pyresult (Point * Point * Point * list Point) :=
  let* pA := point_A self ds in
  let* q := py_div (width self) (slope_top self) in
  let pB := (fst pA + width self, snd pA - q) in
  let* r := right ds in
  let* q := py_div (r - fst pB) (slope_bottom self) in
  let p5 := (r, snd pB - q) in
  let intersections := polyline_polyline_intersections [pB; p5] (surface ds) in
  if (length intersections =? 0)%nat then
    Raise (ValueError (Msg "No intersections between point B and p5, cannot create berm"))
  else
  let* pC := last_item intersections in
  let intersections :=
    map round_point (polyline_polyline_intersections [pA; pB; pC] (surface ds)) in
  let intersections :=
    if negb (point_in (round_point pA) intersections) then pA :: intersections
    else intersections in
  let intersections :=
    if negb (point_in (round_point pC) intersections) then intersections ++ [pC]
    else intersections in
  Ok (pA, pB, pC, intersections).

(** The loop [for i in range(0, len(intersections), 2)]. *)
Fixpoint add_berm_layers (self : t) (ds : loc) (pB : Point) (intersections : list Point)
  : M unit :=
  match intersections with
  | [] => ret tt
  | [_] => raise (IndexError (Msg "list index out of range"))
  | p1 :: p2 :: rest =>
      do* d := read ds in
      do* _ := add_layer_at ds (layer_points d pB p1 p2) (Some (soilcode self)) None in
      add_berm_layers self ds pB rest
  end.

(** The ditch-fill step: it reads the surface of [self.ds] and adds the
    layer to the copy. *)
Definition fill_the_ditch (self : t) (self_ds ds : loc) : M unit :=
  do* d0 := read self_ds in
  do* fp1 := lift (get_closest_point_from_x d0 (ditch_embankement_side self)) in
  do* fp2 := lift (get_closest_point_from_x d0 (ditch_land_side self)) in
  add_layer_at ds (ditch_fill_points d0 fp1 fp2) (ditch_soilcode self)
    (Some "ditch fill"%string).

(** The parity check and the insertion of the layers. *)
Definition insert_berm (self : t) (ds : loc) (pB : Point) (intersections : list Point)
  : M loc :=
  if Nat.odd (length intersections) then
    raise (ValueError (Msg
      "The berm continues outside of the right limit of the geometry, cannot create berm"))
  else
    do* _ := add_berm_layers self ds pB intersections in
    ret ds.

(** The berm itself, built on the copy. *)
Definition build_berm (self : t) (ds : loc) : M loc :=
  do* d := read ds in
  do* (pA, pB, pC, intersections) := lift (berm_points self d) in
  insert_berm self ds pB intersections.

(** [self_ds] is the reference held in [self.ds]; the result is the
    reference of the copy. *)
Definition _execute (self : t) (self_ds : loc) : M loc :=
  do* ds := deepcopy self_ds in
  do* _ := (if fill_ditch self then fill_the_ditch self self_ds ds else ret tt) in
  if Qle_bool (width self) 0 || Qle_bool (height self) 0 then ret ds
  else build_berm self ds.

End WithCollaborators.
End AlgorithmBermWSBD.

(** ** A reference implementation of the collaborators *)

(** Modelled from the spec: [leveelogic/helpers.py] is not among the
    sources. Section 4.1: the intersection of two segments when it exists
    and lies within both, end points included; parallel and degenerate
    segments do not intersect. *)
Definition segment_intersection (p1 p2 p3 p4 : Point) : option Point :=
  let d := (fst p2 - fst p1) * (snd p4 - snd p3) - (snd p2 - snd p1) * (fst p4 - fst p3) in
  if Qeq_bool d 0 then None
  else
    let t := ((fst p3 - fst p1) * (snd p4 - snd p3) - (snd p3 - snd p1) * (fst p4 - fst p3)) / d in
    let u := ((fst p3 - fst p1) * (snd p2 - snd p1) - (snd p3 - snd p1) * (fst p2 - fst p1)) / d in
    if Qle_bool 0 t && Qle_bool t 1 && Qle_bool 0 u && Qle_bool u 1 then
      Some (Qred (fst p1 + t * (fst p2 - fst p1)), Qred (snd p1 + t * (snd p2 - snd p1)))
    else None.

Fixpoint edges (polyline : list Point) : list (Point * Point) :=
  match polyline with
  | a :: ((b :: _) as rest) => (a, b) :: edges rest
  | _ => []
  end.

(** Modelled from the spec: section 4.1, every edge of [polyline_a] against
    every edge of [polyline_b], in the order of the edges of [polyline_a]
    and then of [polyline_b]; coinciding points are kept. *)
Definition intersections_spec (polyline_a polyline_b : list Point) : list Point :=
  flat_map (fun ea =>
    flat_map (fun eb =>
      match segment_intersection (fst ea) (snd ea) (fst eb) (snd eb) with
      | Some p => [p]
      | None => []
      end) (edges polyline_b)) (edges polyline_a).

(** Modelled from the spec: section 4.5, the surface point nearest to a
    coordinate ([get_closest_point_from_x] is not among the sources). *)
Definition closest_point_spec (ds : DStability) (x : pyfloat) : pyresult Point :=
  match surface ds with
  | [] => Raise (ValueError (Msg "min() arg is an empty sequence"))
  | p :: rest =>
      match x with
      | NaN => Ok p
      | Num x =>
          Ok (fold_left (fun best q =>
                           if Qlt_bool (Qabs (fst q - x)) (Qabs (fst best - x)) then q else best)
                        rest p)
      end
  end.

(** Modelled from the spec: section 4.5, a layer insertion adds one layer
    to the cross-section ([add_layer] is not among the sources). *)
Definition add_layer_spec (ds : DStability) (pts : list Point) (code label : option string)
  : pyresult DStability :=
  Ok (mkDStability (characteristic_points ds) (Layers ds ++ [mkLayer pts code label]) (soils ds)
        (waternetcreatorsettings ds) (HeadLines ds) (points ds) (boundary ds) (surface ds)).

#[local] Instance reference_collaborators : Collaborators := {
  polyline_polyline_intersections := intersections_spec;
  line_polyline_intersections x1 z1 x2 z2 polyline :=
    intersections_spec [(x1, z1); (x2, z2)] polyline;
  get_closest_point_from_x := closest_point_spec;
  add_layer := add_layer_spec;
  material_layout _ := CLAY_EMBANKEMENT_ON_CLAY;
  ditch_points _ := []
}.

(** ** Cross-sections used in the examples *)

Definition post_processed (exterior : list Point) (ds : DStability) : DStability :=
  match _post_process exterior ds with
  | Ok ds' => ds'
  | Raise _ => ds
  end.

Definition settings_with_toe (toe : pyfloat) : WaternetCreatorSettings :=
  mkWaternetCreatorSettings (mkEmbankmentCharacteristics toe) (mkDitchCharacteristics NaN NaN).

(** A levee: river on the left, crest between x = 10 and x = 14, land-side
    toe at x = 24. *)
Definition levee_ring : list Point :=
  [(0, 0); (10, 5); (14, 5); (24, 0); (40, 0); (40, -5); (0, -5); (0, 0)].

Definition levee_with (cps : list CharacteristicPoint) (toe : pyfloat) : DStability :=
  post_processed levee_ring
    (mkDStability cps [mkLayer (removelast levee_ring) (Some "clay"%string) None]
       ["clay"%string] [settings_with_toe toe] [] [] [] []).

Definition levee : DStability := levee_with [] (Num 24).

(** An overhanging bank: the surface runs back to the left twice. *)
Definition bank_ring : list Point :=
  [(0, 10); (9, 10); (8, 4); (5, 4); (4, 6); (3, 6); (2, 3); (2, 1); (12, 1);
   (12, 0); (0, 0); (0, 10)].

Definition bank : DStability :=
  post_processed bank_ring
    (mkDStability [] [mkLayer (removelast bank_ring) (Some "clay"%string) None]
       ["clay"%string] [settings_with_toe (Num 11)] [] [] [] []).

Definition berm (width height : Q) (toe : pyfloat) : AlgorithmBermWSBD.t :=
  AlgorithmBermWSBD.mk "clay" 10 1 width height false None toe NaN NaN.

(** A slope that meets the level z = 4 at x = 10 only, with the four
    landmarks of the embankment registered. *)
Definition slope_ring : list Point :=
  [(0, -1); (20, 9); (40, 9); (40, -5); (0, -5); (0, -1)].

Definition embankment_landmarks : list CharacteristicPoint :=
  [mkCharacteristicPoint (Num 12) EMBANKEMENT_TOE_WATER_SIDE;
   mkCharacteristicPoint (Num 20) EMBANKEMENT_TOP_WATER_SIDE;
   mkCharacteristicPoint (Num 25) EMBANKEMENT_TOP_LAND_SIDE;
   mkCharacteristicPoint (Num 35) EMBANKEMENT_TOE_LAND_SIDE].

Definition slope : DStability :=
  post_processed slope_ring
    (mkDStability embankment_landmarks
       [mkLayer (removelast slope_ring) (Some "clay"%string) None]
       ["clay"%string] [settings_with_toe (Num 35)] [] [] [] []).

(** River level 4, polder level 0 and the default offsets. *)
Definition phreatic_line_4 : AlgorithmPhreaticLine.t :=
  AlgorithmPhreaticLine.mk 4 0 1 (3 # 2) 0 None 0.

(** A cross-section without waternet creator settings. *)
Definition no_settings : DStability :=
  mkDStability [] [] ["clay"%string] [] [] [] [] [].

(** A store that holds the levee at reference 1. *)
Definition levee_store : heap := {[ 1%positive := levee ]}.

(** A berm of an unknown soil. *)
Definition berm_of_peat : AlgorithmBermWSBD.t :=
  AlgorithmBermWSBD.mk "peat" 10 1 6 2 false None NaN NaN NaN.


(** A registry with two entries of a singular and of another type. *)
Definition some_landmarks : list CharacteristicPoint :=
  [mkCharacteristicPoint (Num 24) TOE_RIGHT;
   mkCharacteristicPoint (Num 30) DITCH_LAND_SIDE;
   mkCharacteristicPoint (Num 25) TOE_RIGHT;
   mkCharacteristicPoint (Num 36) DITCH_LAND_SIDE].

(** ** More of [DStability] *)

Definition top (ds : DStability) : pyresult Q := Qmax_list (map snd (points ds)).
Definition bottom (ds : DStability) : pyresult Q := Qmin_list (map snd (points ds)).

Definition with_characteristic_points (cps : list CharacteristicPoint) (ds : DStability)
  : DStability :=
  mkDStability cps (Layers ds) (soils ds) (waternetcreatorsettings ds) (HeadLines ds)
    (points ds) (boundary ds) (surface ds).

(** [set_characteristic_point]: for a singular type that the registry has,
    the loop writes [x] into every entry of the type; otherwise an entry is
    appended. *)
Definition set_characteristic_point (ds : DStability) (x : pyfloat)
  (t : CharacteristicPointType) : DStability :=
  let appended :=
    with_characteristic_points (characteristic_points ds ++ [mkCharacteristicPoint x t]) ds in
  if decide (t ∈ singular_types) then
    match get_characteristic_point ds t with
    | VNone => appended
    | _ =>
        with_characteristic_points
          (map (fun cp => if decide (point_type cp = t)
                          then mkCharacteristicPoint x (point_type cp) else cp)
               (characteristic_points ds)) ds
    end
  else appended.

(** No singular type has two entries. *)
Definition singular_unique (cps : list CharacteristicPoint) : Prop :=
  forall t, t ∈ singular_types ->
    (length (filter (fun cp => point_type cp = t) cps) <= 1)%nat.

(** [str(n)] for an integer. *)
Definition string_of_nat (n : nat) : string := NilEmpty.string_of_uint (Nat.to_uint n).
Definition string_of_Z (z : Z) : string := NilEmpty.string_of_int (Z.to_int z).

Definition with_HeadLines (hls : list HeadLine) (ds : DStability) : DStability :=
  mkDStability (characteristic_points ds) (Layers ds) (soils ds) (waternetcreatorsettings ds)
    hls (points ds) (boundary ds) (surface ds).

Definition headline_not_found {A : Type} (label : string) : pyresult A :=
  Raise (ValueError (Msg ("Invalid headline label '" ++ label ++ "' (not found)"))).

(** [get_headline_coordinates]: the points of the first head line with the
    label. *)
Fixpoint find_headline (hls : list HeadLine) (label : string)
  : pyresult (list (pyfloat * pyfloat)) :=
  match hls with
  | [] => headline_not_found label
  | hl :: rest =>
      if String.eqb (hl_label hl) label then Ok (hl_points hl)
      else find_headline rest label
  end.

Definition get_headline_coordinates (ds : DStability) (label : string)
  : pyresult (list (pyfloat * pyfloat)) :=
  find_headline (HeadLines ds) label.

(** [for i in range(len(coords)): hl.Points[i] = ..], for [coords] not longer
    than [pts]. *)
Definition overwrite_points (pts coords : list (pyfloat * pyfloat)) : list (pyfloat * pyfloat) :=
  coords ++ skipn (length coords) pts.

Fixpoint update_headline (hls : list HeadLine) (label : string)
  (coords : list (pyfloat * pyfloat)) : pyresult (list HeadLine) :=
  match hls with
  | [] => headline_not_found label
  | hl :: rest =>
      if String.eqb (hl_label hl) label then
        if (length (hl_points hl) <? length coords)%nat then
          Raise (ValueError (Msg
            ("Trying to set more coords (" ++ string_of_nat (length coords)
             ++ ") then currently in headline '" ++ label ++ "' ("
             ++ string_of_nat (length (hl_points hl)) ++ ")")))
        else
          Ok (mkHeadLine (hl_label hl) (overwrite_points (hl_points hl) coords)
                (is_phreatic_line hl) :: rest)
      else
        let* rest' := update_headline rest label coords in
        Ok (hl :: rest')
  end.

(** [set_headline_coordinates]; it raises before it changes anything. *)
Definition set_headline_coordinates (ds : DStability) (label : string)
  (coords : list (pyfloat * pyfloat)) : pyresult DStability :=
  let* hls := update_headline (HeadLines ds) label coords in
  Ok (with_HeadLines hls ds).

(** ** Scenarios and stages *)

Record Stage := mkStage {
  StageLabel : string
}.

Record Scenario := mkScenario {
  ScenarioLabel : string;
  Stages : list Stage
}.

(** [l[i]] for an integer [i]: a negative index counts from the end. *)
Definition getitem {A : Type} (l : list A) (i : Z) : pyresult A :=
  let n := Z.of_nat (length l) in
  let j := if (i <? 0)%Z then (i + n)%Z else i in
  if (j <? 0)%Z then Raise (IndexError (Msg "list index out of range"))
  else
    match nth_error l (Z.to_nat j) with
    | Some a => Ok a
    | None => Raise (IndexError (Msg "list index out of range"))
    end.

Definition num_scenarios (scenarios : list Scenario) : nat := length scenarios.

Definition num_stages (scenarios : list Scenario) (scenario_index : Z) : pyresult nat :=
  if (scenario_index <? Z.of_nat (length scenarios))%Z then
    let* scenario := getitem scenarios scenario_index in
    Ok (length (Stages scenario))
  else Raise (ValueError (Msg ("Invalid scenario index " ++ string_of_Z scenario_index))).

Definition stage_label (scenarios : list Scenario) (scenario_index stage_index : Z)
  : pyresult string :=
  if (scenario_index <? Z.of_nat (length scenarios))%Z then
    let* scenario := getitem scenarios scenario_index in
    if (stage_index <? Z.of_nat (length (Stages scenario)))%Z then
      let* scenario := getitem scenarios scenario_index in
      let* stage := getitem (Stages scenario) stage_index in
      Ok (StageLabel stage)
    else Raise (ValueError (Msg ("Invalid stage index " ++ string_of_Z stage_index)))
  else Raise (ValueError (Msg ("Invalid scenario index " ++ string_of_Z scenario_index))).

(** [scenario_label] reads the label of [scenarios[0]]. *)
Definition scenario_label (scenarios : list Scenario) (scenario_index : Z) : pyresult string :=
  if (scenario_index <? Z.of_nat (length scenarios))%Z then
    let* scenario := getitem scenarios 0 in
    Ok (ScenarioLabel scenario)
  else Raise (ValueError (Msg ("Invalid scenario index " ++ string_of_Z scenario_index))).

(** The part of the object that [set_scenario_and_stage] writes: the two
    indices, and the cross-section data that [_post_process] recomputes. *)
Record Session := mkSession {
  current_scenario_index : Z;
  current_stage_index : Z;
  session_ds : DStability
}.

Definition set_current_scenario_index (i : Z) (s : Session) : Session :=
  mkSession i (current_stage_index s) (session_ds s).

Definition set_current_stage_index (i : Z) (s : Session) : Session :=
  mkSession (current_scenario_index s) i (session_ds s).

(** [set_scenario_and_stage]; [post_process] stands for the call
    [self._post_process()] on the object with its indices set. *)
Definition set_scenario_and_stage (scenarios : list Scenario)
  (post_process : StateErr Session unit) (scenario_index stage_index : Z)
  : StateErr Session unit :=
  do* _ :=
    (if (scenario_index <? Z.of_nat (length scenarios))%Z then
       modify (set_current_scenario_index scenario_index)
     else raise (ValueError (Msg "Trying to set an invalid scenario index"))) in
  do* self := get in
  do* scenario := lift (getitem scenarios (current_scenario_index self)) in
  do* _ :=
    (if (stage_index <? Z.of_nat (length (Stages scenario)))%Z then
       modify (set_current_stage_index stage_index)
     else
       raise (ValueError (Msg
         ("Trying to set an invalid stage index for scenario "
          ++ string_of_Z (current_scenario_index self))))) in
  post_process.

(** A registry in which the singular type [TOE_RIGHT] has one entry. *)
Definition toe_and_ditch : list CharacteristicPoint :=
  [mkCharacteristicPoint (Num 24) TOE_RIGHT;
   mkCharacteristicPoint (Num 30) DITCH_LAND_SIDE].

(** A cross-section with two head lines. *)
Definition two_headlines : DStability :=
  with_HeadLines
    [mkHeadLine "PL 1" [(Num 0, Num 4); (Num 20, Num 2); (Num 40, Num 0)] true;
     mkHeadLine "PL 2" [(Num 0, Num 1); (Num 40, Num 1)] false]
    levee.

(** Two scenarios, of two stages and of one stage. *)
Definition two_scenarios : list Scenario :=
  [mkScenario "current" [mkStage "initial"; mkStage "high water"];
   mkScenario "reinforced" [mkStage "berm"]].

(** A list of elevations from high to low, no two of them equal. *)
Definition strictly_decreasing (l : list Q) : Prop :=
  StronglySorted (fun a b => b < a) l.

(** A levee with a ditch behind it, between x = 30 and x = 34. *)
Definition ditch_ring : list Point :=
  [(0, 0); (10, 5); (14, 5); (24, 0); (30, 0); (31, -1); (33, -1); (34, 0); (40, 0);
   (40, -5); (0, -5); (0, 0)].

Definition levee_with_ditch : DStability :=
  post_processed ditch_ring
    (mkDStability [] [mkLayer (removelast ditch_ring) (Some "clay"%string) None]
       ["clay"%string; "sand"%string]
       [mkWaternetCreatorSettings (mkEmbankmentCharacteristics (Num 24))
          (mkDitchCharacteristics (Num 30) (Num 34))]
       [] [] [] []).

(** Filling the ditch with sand, without a berm. *)
Definition fill_ditch_only : AlgorithmBermWSBD.t :=
  AlgorithmBermWSBD.mk "" 10 1 0 0 true (Some "sand"%string) NaN (Num 30) (Num 34).

(** The levee with its ditch filled with sand. *)
Definition levee_with_filled_ditch : DStability :=
  mkDStability (characteristic_points levee_with_ditch)
    (Layers levee_with_ditch
     ++ [mkLayer [(30, 0); (34, 0); (34, 0); (33, -1); (31, -1); (30, 0)]
           (Some "sand"%string) (Some "ditch fill"%string)])
    (soils levee_with_ditch) (waternetcreatorsettings levee_with_ditch)
    (HeadLines levee_with_ditch) (points levee_with_ditch) (boundary levee_with_ditch)
    (surface levee_with_ditch).

(** Filling the ditch and building a berm of width 6 and height 2. *)
Definition berm_and_ditch : AlgorithmBermWSBD.t :=
  AlgorithmBermWSBD.mk "clay" 10 1 6 2 true (Some "sand"%string) (Num 24) (Num 30) (Num 34).


(** A berm whose top slope is zero. *)
Definition berm_without_top_slope : AlgorithmBermWSBD.t :=
  AlgorithmBermWSBD.mk "clay" 0 1 6 2 false None (Num 24) NaN NaN.

(** ** Reading a run of the berm algorithm *)

(** [f] applied to the value that a computation returns. *)
Definition result_map {A B : Type} (f : A -> B) (r : pyresult A) : pyresult B :=
  match r with
  | Ok a => Ok (f a)
  | Raise e => Raise e
  end.

(** The bounds of a layer, in the words of the amended claim:
    [left.x <= x <= right.x]. *)
Definition between_inclusive (left right : Q) (p : Point) : bool :=
  Qle_bool left (fst p) && Qle_bool (fst p) right.

(** A polygon that starts with [top] and is closed along the ground: the
    surface points within the bounds follow in reverse order. *)
Definition closed_along_surface (surface top : list Point) (left right : Q) : list Point :=
  top ++ rev (List.filter (between_inclusive left right) surface).

Section BermRuns.
Context `{Collaborators}.

(** [d1] is the value of the copy of [d] after the ditch-fill step of
    [_execute]: without the step the copy itself, with it the answer of the
    one [add_layer] call. *)
Definition after_ditch_fill (self : AlgorithmBermWSBD.t) (d d1 : DStability) : Prop :=
  if AlgorithmBermWSBD.fill_ditch self then
    exists fp1 fp2 : Point,
      get_closest_point_from_x d (AlgorithmBermWSBD.ditch_embankement_side self) = Ok fp1
      /\ get_closest_point_from_x d (AlgorithmBermWSBD.ditch_land_side self) = Ok fp2
      /\ add_layer d (AlgorithmBermWSBD.ditch_fill_points d fp1 fp2)
           (AlgorithmBermWSBD.ditch_soilcode self) (Some "ditch fill"%string) = Ok d1
  else d1 = d.

(** One [add_layer] call for one pair of intersections, on the value that
    the calls before it produced; nothing is called after a call has
    raised. *)
Definition insert_pair (self : AlgorithmBermWSBD.t) (pB : Point) (acc : pyresult DStability)
  (pair : Point * Point) : pyresult DStability :=
  let* d := acc in
  add_layer d (AlgorithmBermWSBD.layer_points d pB (fst pair) (snd pair))
    (Some (AlgorithmBermWSBD.soilcode self)) None.

End BermRuns.

(** Whether the height check looks at a point: its x is right of C and not
    right of F. *)
Definition in_checked_range (Cx Fx : pyfloat) (p : AlgorithmPhreaticLine.plpoint) : bool :=
  fgt (AlgorithmPhreaticLine.px p) Cx && fle (AlgorithmPhreaticLine.px p) Fx.

(** * Examples *)

Example round3_to_the_nearest :
  round3 (12344 # 10000) = 617 # 500 /\ round3 (26 # 10) = 13 # 5
  /\ round3 (- (7 # 3)) = - (2333 # 1000).
Proof. repeat split; vm_compute; reflexivity. Qed.

Example surface_of_levee :
  _post_process levee_ring levee = Ok levee
  /\ surface levee = [(0, 0); (10, 5); (14, 5); (24, 0); (40, 0)].
Proof. split; vm_compute; reflexivity. Qed.

Example z_at_levee_toe :
  map Qred (z_at levee (Num 24)) = [0; -5] /\ z_at levee NaN = [].
Proof. split; vm_compute; reflexivity. Qed.

(** The input check on the levee reads the toe from the settings. *)
Example berm_check_input_levee :
  AlgorithmBermWSBD._check_input levee (berm 6 2 NaN) = (Ok tt, berm 6 2 (Num 24)).
Proof. vm_compute; reflexivity. Qed.

(** A berm on the levee: the copy at reference 2 gets one layer, the levee
    at reference 1 stays as it is. *)
Example berm_execute_levee :
  let run := AlgorithmBermWSBD._execute (berm 6 2 (Num 24)) 1%positive levee_store in
  fst run = Ok 2%positive
  /\ snd run !! 1%positive = Some levee
  /\ (Layers <$> snd run !! 2%positive)
     = Some (Layers levee
             ++ [mkLayer [(19, 5 # 2); (25, 38 # 20); (269 # 10, 0); (24, 0)]
                   (Some "clay"%string) None]).
Proof. repeat split; vm_compute; reflexivity. Qed.

Example get_characteristic_point_examples :
  let ds := levee_with some_landmarks (Num 24) in
  get_characteristic_point ds TOE_RIGHT = VCharPoint (mkCharacteristicPoint (Num 24) TOE_RIGHT)
  /\ get_characteristic_point ds DITCH_LAND_SIDE
     = VCharPointList [mkCharacteristicPoint (Num 30) DITCH_LAND_SIDE;
                       mkCharacteristicPoint (Num 36) DITCH_LAND_SIDE]
  /\ get_characteristic_point ds CREST_LEFT = VNone
  /\ get_characteristic_point ds DITCH_EMBANKEMENT_SIDE = VNone.
Proof. repeat split; vm_compute; reflexivity. Qed.

(** * Properties *)

(** ** The surface *)

Lemma Qlt_bool_iff (a b : Q) : Qlt_bool a b = true <-> a < b.
Proof.
  unfold Qlt_bool. rewrite negb_true_iff, <- not_true_iff_false, Qle_bool_iff.
  split; intros; lra.
Qed.

Lemma Qlt_bool_false (a b : Q) : Qlt_bool a b = false <-> b <= a.
Proof. unfold Qlt_bool. rewrite negb_false_iff. apply Qle_bool_iff. Qed.

Lemma fold_min_spec (l : list Q) (a : Q) :
  let m := fold_left (fun m x => if Qlt_bool x m then x else m) l a in
  In m (a :: l) /\ forall x, In x (a :: l) -> m <= x.
Proof.
  revert a. induction l as [|y l IH]; intros a; simpl.
  - split; [now left|]. intros x [<-|[]]. lra.
  - destruct (IH (if Qlt_bool y a then y else a)) as [Hin Hle]. simpl in Hin, Hle.
    split.
    + destruct Hin as [Hin|Hin]; [|now right; right].
      rewrite <- Hin. destruct (Qlt_bool y a); [right; now left | now left].
    + intros x Hx.
      assert (fold_left (fun m x => if Qlt_bool x m then x else m) l
                (if Qlt_bool y a then y else a)
              <= (if Qlt_bool y a then y else a)) as Hm by (apply Hle; now left).
      destruct (Qlt_bool y a) eqn:Hya.
      * apply Qlt_bool_iff in Hya. destruct Hx as [<-|[<-|Hx]]; [lra|lra|].
        apply Hle. now right.
      * apply Qlt_bool_false in Hya. destruct Hx as [<-|[<-|Hx]]; [lra|lra|].
        apply Hle. now right.
Qed.

Lemma fold_max_spec (l : list Q) (a : Q) :
  let m := fold_left (fun m x => if Qlt_bool m x then x else m) l a in
  In m (a :: l) /\ forall x, In x (a :: l) -> x <= m.
Proof.
  revert a. induction l as [|y l IH]; intros a; simpl.
  - split; [now left|]. intros x [<-|[]]. lra.
  - destruct (IH (if Qlt_bool a y then y else a)) as [Hin Hle]. simpl in Hin, Hle.
    split.
    + destruct Hin as [Hin|Hin]; [|now right; right].
      rewrite <- Hin. destruct (Qlt_bool a y); [right; now left | now left].
    + intros x Hx.
      assert ((if Qlt_bool a y then y else a)
              <= fold_left (fun m x => if Qlt_bool m x then x else m) l
                   (if Qlt_bool a y then y else a)) as Hm by (apply Hle; now left).
      destruct (Qlt_bool a y) eqn:Hya.
      * apply Qlt_bool_iff in Hya. destruct Hx as [<-|[<-|Hx]]; [lra|lra|].
        apply Hle. now right.
      * apply Qlt_bool_false in Hya. destruct Hx as [<-|[<-|Hx]]; [lra|lra|].
        apply Hle. now right.
Qed.

Lemma Qmin_list_spec (l : list Q) :
  l <> [] -> exists m, Qmin_list l = Ok m /\ In m l /\ forall x, In x l -> m <= x.
Proof.
  destruct l as [|a l]; [congruence|]. intros _. eexists. split; [reflexivity|].
  apply fold_min_spec.
Qed.

Lemma Qmax_list_spec (l : list Q) :
  l <> [] -> exists m, Qmax_list l = Ok m /\ In m l /\ forall x, In x l -> x <= m.
Proof.
  destruct l as [|a l]; [congruence|]. intros _. eexists. split; [reflexivity|].
  apply fold_max_spec.
Qed.

Lemma StronglySorted_last {A : Type} (R : A -> A -> Prop) (l : list A) (a : A) :
  R a a -> StronglySorted R (l ++ [a]) -> forall q, In q (l ++ [a]) -> R q a.
Proof.
  intros Hrefl. induction l as [|b l IH]; simpl; intros Hs q Hq.
  - destruct Hq as [<-|[]]. exact Hrefl.
  - inversion Hs as [|? ? Hs' Hall]; subst. destruct Hq as [<-|Hq].
    + rewrite List.Forall_forall in Hall. apply Hall. apply in_app_iff. right. now left.
    + now apply IH.
Qed.

Lemma insert_by_z_In (p q : Point) (l : list Point) :
  In q (insert_by_z p l) <-> q = p \/ In q l.
Proof.
  induction l as [|a l IH]; simpl.
  - intuition.
  - destruct (Qle_bool (snd p) (snd a)); simpl; [intuition|]. rewrite IH. intuition.
Qed.

Lemma sorted_by_z_In (q : Point) (l : list Point) : In q (sorted_by_z l) <-> In q l.
Proof.
  induction l as [|a l IH]; simpl; [tauto|].
  rewrite insert_by_z_In, IH. intuition.
Qed.

Lemma insert_by_z_sorted (p : Point) (l : list Point) :
  StronglySorted (fun a b => snd a <= snd b) l ->
  StronglySorted (fun a b => snd a <= snd b) (insert_by_z p l).
Proof.
  induction l as [|a l IH]; simpl; intros Hs.
  - constructor; constructor.
  - inversion Hs as [|? ? Hs' Hall]; subst.
    destruct (Qle_bool (snd p) (snd a)) eqn:Hpa.
    + apply Qle_bool_iff in Hpa. constructor; [exact Hs|].
      constructor; [exact Hpa|]. rewrite List.Forall_forall in *. intros x Hx.
      specialize (Hall x Hx). simpl in Hall. lra.
    + assert (snd a <= snd p) as Hap.
      { destruct (Qlt_le_dec (snd a) (snd p)) as [Hlt|Hle]; [lra|].
        apply Qle_bool_iff in Hle. congruence. }
      constructor; [now apply IH|]. rewrite List.Forall_forall in *. intros x Hx.
      apply insert_by_z_In in Hx as [->|Hx]; [exact Hap | now apply Hall].
Qed.

Lemma sorted_by_z_sorted (l : list Point) :
  StronglySorted (fun a b => snd a <= snd b) (sorted_by_z l).
Proof.
  induction l as [|a l IH]; simpl; [constructor | now apply insert_by_z_sorted].
Qed.

Lemma last_item_app {A : Type} (l : list A) (a : A) : last_item (l ++ [a]) = Ok a.
Proof. unfold last_item. rewrite rev_app_distr. reflexivity. Qed.

(** [sorted(l, key = z)[-1]] is a point of [l] of greatest z. *)
Lemma last_sorted_by_z (l : list Point) :
  l <> [] ->
  exists m, last_item (sorted_by_z l) = Ok m /\ In m l /\ forall q, In q l -> snd q <= snd m.
Proof.
  intros Hne. pose proof (sorted_by_z_sorted l) as Hs.
  destruct (sorted_by_z l) as [|a s] eqn:Hsl using rev_ind.
  - destruct l as [|p l]; [congruence|]. exfalso.
    assert (In p (sorted_by_z (p :: l))) as Hin by (apply sorted_by_z_In; now left).
    rewrite Hsl in Hin. exact Hin.
  - clear IHs. exists a. split; [apply last_item_app|]. split.
    + apply sorted_by_z_In. rewrite Hsl. apply in_app_iff. right. now left.
    + intros q Hq.
      apply (StronglySorted_last (fun a b : Point => snd a <= snd b) s a); [lra | exact Hs |].
      rewrite <- Hsl. now apply sorted_by_z_In.
Qed.

Lemma point_eqb_eq (p q : Point) :
  point_eqb p q = true <-> fst p == fst q /\ snd p == snd q.
Proof. unfold point_eqb. now rewrite andb_true_iff, !Qeq_bool_iff. Qed.

Lemma point_eqb_refl (p : Point) : point_eqb p p = true.
Proof. apply point_eqb_eq. split; reflexivity. Qed.

(** [l.index(p)] finds a point equal to [p] when [p] is in [l]. *)
Lemma index_found (l : list Point) (p : Point) :
  In p l ->
  exists i q, index l p = Ok i /\ nth_error l i = Some q /\ point_eqb q p = true.
Proof.
  induction l as [|a l IH]; simpl; [tauto|]. intros Hin.
  destruct (point_eqb a p) eqn:Hap.
  - exists 0%nat, a. auto.
  - destruct Hin as [->|Hin]; [rewrite point_eqb_refl in Hap; discriminate|].
    destruct (IH Hin) as (i & q & Hi & Hq & Heq). exists (S i), q.
    rewrite Hi. auto.
Qed.

Lemma skipn_nth_error {A : Type} (l : list A) (i : nat) (a : A) :
  nth_error l i = Some a -> skipn i l = a :: skipn (S i) l.
Proof.
  revert i. induction l as [|b l IH]; intros [|i]; simpl; try discriminate.
  - now intros [= ->].
  - intros Hi. now apply IH.
Qed.

Lemma firstn_nth_error {A : Type} (l : list A) (i : nat) (a : A) :
  nth_error l i = Some a -> firstn (i + 1) l = firstn i l ++ [a].
Proof.
  revert i. induction l as [|b l IH]; intros [|i]; simpl; try discriminate.
  - now intros [= ->].
  - intros Hi. now rewrite (IH i Hi).
Qed.

Lemma last_of_snoc {A : Type} (front rest : list A) (a x : A) :
  front ++ [a] = x :: rest -> List.last rest x = a.
Proof.
  destruct front as [|b front]; simpl; intros Heq; inversion Heq; subst.
  - reflexivity.
  - apply last_last.
Qed.

Lemma In_firstn {A : Type} (l : list A) (n : nat) (a : A) : In a (firstn n l) -> In a l.
Proof.
  revert n. induction l as [|b l IH]; intros [|n]; simpl; try tauto.
  intros [->|Hin]; [now left | right; now apply (IH n)].
Qed.

Lemma In_rotate {A : Type} (l : list A) (i : nat) (a : A) :
  In a (skipn i l ++ firstn i l) <-> In a l.
Proof.
  rewrite in_app_iff. rewrite <- (firstn_skipn i l) at 3. rewrite in_app_iff. tauto.
Qed.

Lemma surface_of_boundary_spec (b : list Point) :
  match b with
  | [] => surface_of_boundary b = Raise (ValueError (Msg "min() arg is an empty sequence"))
  | _ :: _ =>
      exists (first : Point) (rest : list Point),
        surface_of_boundary b = Ok (first :: rest)
        /\ topmost_leftmost first b
        /\ topmost_rightmost (List.last rest first) b
        /\ forall p, In p (first :: rest) ->
             In p b /\ fst first <= fst p /\ fst p <= fst (List.last rest first)
  end.
Proof.
  destruct b as [|b0 b']; [reflexivity|]. remember (b0 :: b') as b eqn:Hb0.
  assert (map fst b <> []) as Hb by (subst b; discriminate).
  clear Hb0.
  assert (forall F : Point -> bool, (exists p, In p b /\ F p = true) -> List.filter F b <> [])
    as Hfilter.
  { intros F (p & Hp & HF) Hnil.
    assert (In p (List.filter F b)) as Hin by (apply filter_In; auto).
    rewrite Hnil in Hin. exact Hin. }
  unfold surface_of_boundary.
  (* the leftmost x and the top left point *)
  destruct (Qmin_list_spec (map fst b)) as (left & -> & Hleft_in & Hleft_min).
  { exact Hb. }
  cbn [bind]. apply in_map_iff in Hleft_in as (pl & Hpl & Hpl_in).
  destruct (last_sorted_by_z (List.filter (fun p => Qeq_bool (fst p) left) b))
    as (topleft & -> & Htl_in & Htl_max).
  { apply Hfilter. exists pl. split; [exact Hpl_in|]. apply Qeq_bool_iff. now rewrite Hpl. }
  cbn [bind]. apply filter_In in Htl_in as [Htl_in Htl_x]. apply Qeq_bool_iff in Htl_x.
  (* the rightmost x and the top right point *)
  destruct (Qmax_list_spec (map fst b)) as (right & -> & Hright_in & Hright_max).
  { exact Hb. }
  cbn [bind]. apply in_map_iff in Hright_in as (pr & Hpr & Hpr_in).
  destruct (last_sorted_by_z (List.filter (fun p => Qeq_bool (fst p) right) b))
    as (topright & -> & Htr_in & Htr_max).
  { apply Hfilter. exists pr. split; [exact Hpr_in|]. apply Qeq_bool_iff. now rewrite Hpr. }
  cbn [bind]. apply filter_In in Htr_in as [Htr_in Htr_x]. apply Qeq_bool_iff in Htr_x.
  (* the rotation *)
  destruct (index_found b topleft Htl_in) as (i & first & -> & Hi & Hfirst).
  cbn [bind]. apply point_eqb_eq in Hfirst as [Hfx Hfz].
  rewrite (skipn_nth_error b i first Hi).
  assert (In topright (skipn i b ++ firstn i b)) as Htr_rot by (now apply In_rotate).
  rewrite (skipn_nth_error b i first Hi) in Htr_rot.
  destruct (index_found _ topright Htr_rot) as (j & lst & -> & Hj & Hlast).
  cbn [bind]. apply point_eqb_eq in Hlast as [Hlx Hlz].
  pose proof (firstn_nth_error _ j lst Hj) as Hcut.
  assert (forall p, In p ((first :: skipn (S i) b) ++ firstn i b) -> In p b) as Hsub.
  { intros p Hp. rewrite <- (skipn_nth_error b i first Hi) in Hp. now apply In_rotate in Hp. }
  remember ((first :: skipn (S i) b) ++ firstn i b) as s eqn:Hs.
  destruct (firstn (j + 1) s) as [|x rest] eqn:Hcut'.
  { destruct (firstn j s); discriminate. }
  assert (x = first) as ->.
  { rewrite Hs in Hcut'. rewrite Nat.add_1_r in Hcut'. simpl in Hcut'. now inversion Hcut'. }
  assert (List.last rest first = lst) as Hlst by (now apply (last_of_snoc (firstn j s))).
  assert (In lst b) as Hlst_in by (apply Hsub; now apply (nth_error_In s j)).
  assert (In first b) as Hfirst_in by (now apply (nth_error_In b i)).
  exists first, rest. split; [reflexivity|]. rewrite Hlst.
  assert (forall q, In q b -> left <= fst q /\ fst q <= right) as Hrange.
  { intros q Hq. split; [apply Hleft_min | apply Hright_max]; apply in_map_iff; eauto. }
  split; [|split].
  - split; [exact Hfirst_in|]. intros q Hq. destruct (Hrange q Hq) as [Hq1 Hq2].
    split; [lra|]. intros Hqx.
    assert (snd q <= snd topleft) as Hz; [|lra].
    apply Htl_max. apply filter_In. split; [exact Hq|]. apply Qeq_bool_iff. lra.
  - split; [exact Hlst_in|]. intros q Hq. destruct (Hrange q Hq) as [Hq1 Hq2].
    split; [lra|]. intros Hqx.
    assert (snd q <= snd topright) as Hz; [|lra].
    apply Htr_max. apply filter_In. split; [exact Hq|]. apply Qeq_bool_iff. lra.
  - intros p Hp. rewrite <- Hcut' in Hp. apply In_firstn in Hp. apply Hsub in Hp.
    destruct (Hrange p Hp) as [Hp1 Hp2]. split; [exact Hp|]. lra.
Qed.

(** C1, as amended. When the boundary is not empty, [_post_process]
    stores a surface that is not empty; its first point is the highest of
    the boundary points of smallest x, its last point the highest of the
    boundary points of largest x, and every point of the surface is a point
    of the boundary, with an x between the x of the first and of the last
    point. *)
Theorem post_process_surface_first_and_last (exterior : list Point) (ds : DStability) :
  match map round_point (removelast exterior) with
  | [] => _post_process exterior ds = Raise (ValueError (Msg "min() arg is an empty sequence"))
  | _ :: _ =>
      exists (ds' : DStability) (first : Point) (rest : list Point),
        _post_process exterior ds = Ok ds'
        /\ boundary ds' = map round_point (removelast exterior)
        /\ surface ds' = first :: rest
        /\ topmost_leftmost first (boundary ds')
        /\ topmost_rightmost (List.last rest first) (boundary ds')
        /\ forall p, In p (surface ds') ->
             In p (boundary ds') /\ fst first <= fst p /\ fst p <= fst (List.last rest first)
  end.
Proof.
  unfold _post_process.
  pose proof (surface_of_boundary_spec (map round_point (removelast exterior))) as Hs.
  destruct (map round_point (removelast exterior)) as [|b0 b].
  - rewrite Hs. reflexivity.
  - destruct Hs as (first & rest & -> & Hfirst & Hlast & Hall).
    eexists; exists first, rest. cbn [bind]. split; [reflexivity|]. simpl. auto.
Qed.

(** C1, as stated, fails: the boundary of the overhanging bank is a simple
    polygon, listed clockwise, and the x of its surface goes down from 9 to
    8 after the second point. *)
Lemma surface_of_bank_not_x_sorted :
  _post_process bank_ring bank = Ok bank
  /\ surface bank
     = [(0, 10); (9, 10); (8, 4); (5, 4); (4, 6); (3, 6); (2, 3); (2, 1); (12, 1)]
  /\ ~ x_sorted (surface bank).
Proof.
  assert (surface bank
          = [(0, 10); (9, 10); (8, 4); (5, 4); (4, 6); (3, 6); (2, 3); (2, 1); (12, 1)])
    as Hs by (vm_compute; reflexivity).
  split; [vm_compute; reflexivity|]. split; [exact Hs|].
  rewrite Hs. unfold x_sorted. intros Hsorted.
  inversion Hsorted as [|? ? Hs1 _]; subst.
  inversion Hs1 as [|? ? _ Hall]; subst.
  inversion Hall as [|? ? Hle _]; subst. simpl in Hle. lra.
Qed.


(** ** The landmark registry *)

Lemma first_of_type_spec (t : CharacteristicPointType) (cps : list CharacteristicPoint) :
  match first_of_type t cps with
  | VNone => Forall (fun c => point_type c <> t) cps
  | VCharPoint cp =>
      exists before after,
        cps = before ++ cp :: after /\ point_type cp = t
        /\ Forall (fun c => point_type c <> t) before
  | _ => False
  end.
Proof.
  induction cps as [|c cps IH]; simpl.
  - constructor.
  - destruct (decide (point_type c = t)) as [Heq|Hne].
    + exists [], cps. repeat split; auto.
    + destruct (first_of_type t cps) as [| | |cp|]; try contradiction.
      * constructor; assumption.
      * destruct IH as (before & after & -> & Ht & Hb).
        exists (c :: before), after. repeat split; auto.
Qed.

(** C9, as amended. The result of [get_characteristic_point] is [None]
    exactly when no entry has the type; otherwise it is, for a singular
    type, the first entry of the type, and for any other type the list of
    all entries of the type in registry order, which is then not empty. *)
Theorem get_characteristic_point_result (ds : DStability) (t : CharacteristicPointType) :
  match get_characteristic_point ds t with
  | VNone => Forall (fun c => point_type c <> t) (characteristic_points ds)
  | VCharPoint cp =>
      (t ∈ singular_types)
      /\ exists before after,
           characteristic_points ds = before ++ cp :: after /\ point_type cp = t
           /\ Forall (fun c => point_type c <> t) before
  | VCharPointList l =>
      (t ∉ singular_types) /\ l <> []
      /\ l = filter (fun c => point_type c = t) (characteristic_points ds)
  | _ => False
  end.
Proof.
  unfold get_characteristic_point.
  destruct (decide (t ∈ singular_types)) as [Hs|Hs].
  - pose proof (first_of_type_spec t (characteristic_points ds)) as Hf.
    destruct (first_of_type t (characteristic_points ds)); try contradiction; auto.
  - destruct (filter (fun c => point_type c = t) (characteristic_points ds)) as [|c l] eqn:Hl.
    + apply Forall_forall. intros c Hc Ht.
      assert (c ∈ filter (fun c => point_type c = t) (characteristic_points ds)) as Hin.
      { apply list_elem_of_filter. split; [exact Ht | first [exact Hc | now apply list_elem_of_In]]. }
      rewrite Hl in Hin. inversion Hin.
    + repeat split; auto; discriminate.
Qed.

Lemma not_singular_dec (t : CharacteristicPointType) :
  bool_decide (t ∈ singular_types) = false -> t ∉ singular_types.
Proof. intros Hb Hin. apply bool_decide_eq_false in Hb. contradiction. Qed.

(** C9, as stated, fails: for a type that is not singular and has no entry
    the result is [None], not the empty list of matching entries. *)
Lemma get_characteristic_point_not_empty_list :
  (DITCH_LAND_SIDE ∉ singular_types)
  /\ (get_characteristic_point levee DITCH_LAND_SIDE
      <> VCharPointList
           (filter (fun c => point_type c = DITCH_LAND_SIDE) (characteristic_points levee))).
Proof.
  split.
  - apply not_singular_dec. reflexivity.
  - vm_compute. discriminate.
Qed.

(** ** The input check of the phreatic line *)

Lemma get_embankment_landmark_not_a_point (ds : DStability) (t : CharacteristicPointType)
  (cp : CharacteristicPoint) :
  t ∉ singular_types -> get_characteristic_point ds t <> VCharPoint cp.
Proof.
  intros Hs. unfold get_characteristic_point.
  destruct (decide (t ∈ singular_types)) as [Hin|_]; [contradiction|].
  destruct (filter (fun c => point_type c = t) (characteristic_points ds)); discriminate.
Qed.

Lemma getattr_is_valid_of_list (ds : DStability) (t : CharacteristicPointType) :
  t ∉ singular_types ->
  exists ty, getattr_is_valid (get_characteristic_point ds t) = Raise (AttributeError ty "is_valid").
Proof.
  intros Hs. pose proof (get_embankment_landmark_not_a_point ds t) as Hn.
  destruct (get_characteristic_point ds t) eqn:Hg; simpl; eauto.
  exfalso. now apply (Hn cp).
Qed.

Lemma getattr_x_of_list (ds : DStability) (t : CharacteristicPointType) :
  t ∉ singular_types ->
  exists ty, getattr_x (get_characteristic_point ds t) = Raise (AttributeError ty "x").
Proof.
  intros Hs. pose proof (get_embankment_landmark_not_a_point ds t) as Hn.
  destruct (get_characteristic_point ds t) eqn:Hg; simpl; eauto.
  exfalso. now apply (Hn cp).
Qed.

(** C3: the input check does not raise [AlgorithmInputCheckError] for a
    missing landmark. The landmarks it asks for are not singular types, so
    the registry answers [None] or a list, and reading [is_valid] from
    either raises [AttributeError]; on a registry without landmarks the
    check raises it on [None]. *)
Theorem phreatic_check_input_raises_AttributeError :
  (forall ds : DStability,
     exists ty, AlgorithmPhreaticLine._check_input ds = Raise (AttributeError ty "is_valid"))
  /\ characteristic_points levee = []
  /\ AlgorithmPhreaticLine._check_input levee = Raise (AttributeError "NoneType" "is_valid").
Proof.
  split; [|split; reflexivity].
  intros ds. unfold AlgorithmPhreaticLine._check_input.
  destruct (getattr_is_valid_of_list ds EMBANKEMENT_TOP_WATER_SIDE) as [ty Hty].
  { now apply not_singular_dec. }
  exists ty. now rewrite Hty.
Qed.

(** ** The clay layout of the phreatic line *)

Section ClayLayout.
Context `{Collaborators}.

Lemma z_at_minus_raises (ds : DStability) (x : pyfloat) (offset : Q) :
  AlgorithmPhreaticLine.z_at_minus ds x offset
  = Raise (TypeError (Msg "unsupported operand type(s) for -: 'list' and 'float'")).
Proof. reflexivity. Qed.

Lemma clay_layout_point_A (self : AlgorithmPhreaticLine.t) (ds : DStability) (l r : Q) :
  left ds = Ok l -> right ds = Ok r ->
  AlgorithmPhreaticLine.point_A self ds
  = match line_polyline_intersections l (AlgorithmPhreaticLine.river_level self) r
            (AlgorithmPhreaticLine.river_level self) (surface ds) with
    | [] => Raise (AlgorithmExecutionError (MsgFloat
              "No intersection with the surface and the given river level ("
              (AlgorithmPhreaticLine.river_level self) ") found."))
    | a :: _ => Ok a
    end.
Proof. intros Hl Hr. unfold AlgorithmPhreaticLine.point_A. now rewrite Hl, Hr. Qed.

(** C4: the clay layout never returns its six control points. The
    elevation of E is computed as [ds.z_at(Ex) - self.E_offset], and [z_at]
    returns a list: the subtraction raises [TypeError] whatever the
    cross-section is (the berm algorithm takes [ds.z_at(..)[0]]). Before
    that line is reached, reading [x] from the answer of the registry for a
    landmark that is not singular has already raised. *)
Theorem clay_layout_never_returns (self : AlgorithmPhreaticLine.t) (ds : DStability) :
  (forall Ex : pyfloat,
     AlgorithmPhreaticLine.z_at_minus ds Ex (AlgorithmPhreaticLine.E_offset self)
     = Raise (TypeError (Msg "unsupported operand type(s) for -: 'list' and 'float'")))
  /\ forall abcdef : list AlgorithmPhreaticLine.plpoint,
       AlgorithmPhreaticLine._execute_clay_layout self ds <> Ok abcdef.
Proof.
  split; [intros; apply z_at_minus_raises|].
  intros abcdef. unfold AlgorithmPhreaticLine._execute_clay_layout.
  destruct (AlgorithmPhreaticLine.point_A self ds) as [A|e]; simpl; [|discriminate].
  destruct (getattr_x (get_characteristic_point ds EMBANKEMENT_TOP_LAND_SIDE)) as [Cx|e];
    simpl; [|discriminate].
  destruct (getattr_x (get_characteristic_point ds EMBANKEMENT_TOE_LAND_SIDE)) as [Ex|e];
    simpl; discriminate.
Qed.

End ClayLayout.

(** C5: on the slope that meets the river level 4 at x = 10 only, with the
    default offsets 1 and 1.5 and the landmark of the land-side top
    registered at x = 25, the clay layout finds A = (10, 4), places B at
    (11, 3) and then raises [AttributeError]: the registry answers a list
    for that landmark, and the layout reads [x] from it. The point
    C = (25, 2.5) is not produced and no control point is returned. *)
Theorem clay_layout_scenario_raises :
  surface slope = [(0, -1); (20, 9); (40, 9)]
  /\ get_characteristic_point slope EMBANKEMENT_TOP_LAND_SIDE
     = VCharPointList [mkCharacteristicPoint (Num 25) EMBANKEMENT_TOP_LAND_SIDE]
  /\ AlgorithmPhreaticLine.point_A phreatic_line_4 slope = Ok (10, 4)
  /\ AlgorithmPhreaticLine.point_B phreatic_line_4 (10, 4) = (11, 3)
  /\ AlgorithmPhreaticLine._execute_clay_layout phreatic_line_4 slope
     = Raise (AttributeError "list" "x").
Proof. repeat split; vm_compute; reflexivity. Qed.

(** ** The input check of the berm *)

(** C10, as amended. Without waternet creator settings the input check of
    the berm raises [IndexError], except when a berm is asked for
    (width and height positive) with a soil code that the cross-section
    does not have: that is reported first, as [AlgorithmInputCheckError].
    In particular the check raises [IndexError] when no berm is asked
    for, whether the ditch is to be filled or not. *)
Theorem berm_check_input_without_settings (self : AlgorithmBermWSBD.t) (ds : DStability) :
  waternetcreatorsettings ds = [] ->
  fst (AlgorithmBermWSBD._check_input ds self)
  = if Qlt_bool 0 (AlgorithmBermWSBD.width self) && Qlt_bool 0 (AlgorithmBermWSBD.height self)
       && negb (has_soilcode ds (AlgorithmBermWSBD.soilcode self))
    then Raise (AlgorithmInputCheckError (Msg
           ("AlgorithmBermWSBD got an invalid soilcode '" ++ AlgorithmBermWSBD.soilcode self
            ++ "'")))
    else Raise (IndexError (Msg "list index out of range")).
Proof.
  intros Hs. unfold AlgorithmBermWSBD._check_input, bindM, get, lift, raise, ret.
  rewrite Hs. simpl.
  destruct (Qlt_bool 0 (AlgorithmBermWSBD.width self)
            && Qlt_bool 0 (AlgorithmBermWSBD.height self)); simpl; [|reflexivity].
  destruct (has_soilcode ds (AlgorithmBermWSBD.soilcode self)); reflexivity.
Qed.

Lemma berm_check_input_without_settings_witness :
  waternetcreatorsettings no_settings = []
  /\ fst (AlgorithmBermWSBD._check_input no_settings (berm 0 0 NaN))
     = Raise (IndexError (Msg "list index out of range")).
Proof.
  split; [reflexivity|].
  exact (berm_check_input_without_settings (berm 0 0 NaN) no_settings eq_refl).
Defined.

(** C10, as stated, fails: without waternet creator settings, a berm of
    positive width and height with an unknown soil code is rejected with
    [AlgorithmInputCheckError], before the settings are read. *)
Lemma berm_check_input_unknown_soil_first :
  waternetcreatorsettings no_settings = []
  /\ fst (AlgorithmBermWSBD._check_input no_settings berm_of_peat)
     = Raise (AlgorithmInputCheckError (Msg "AlgorithmBermWSBD got an invalid soilcode 'peat'"))
  /\ fst (AlgorithmBermWSBD._check_input no_settings berm_of_peat)
     <> Raise (IndexError (Msg "list index out of range")).
Proof.
  split; [reflexivity|]. split; [vm_compute; reflexivity | vm_compute; discriminate].
Qed.

(** ** Closing a layer along the surface *)

Lemma surface_points_between_In (ds : DStability) (left right : Q) (p : Point) :
  In p (surface_points_between ds left right)
  <-> In p (surface ds) /\ left <= fst p /\ fst p <= right.
Proof.
  unfold surface_points_between. rewrite filter_In, andb_true_iff, !Qle_bool_iff. tauto.
Qed.

Lemma between_inclusive_In (left right : Q) (surface : list Point) (p : Point) :
  In p (List.filter (between_inclusive left right) surface)
  <-> In p surface /\ left <= fst p /\ fst p <= right.
Proof.
  unfold between_inclusive. rewrite filter_In, andb_true_iff, !Qle_bool_iff. tauto.
Qed.

(** ** The store: the input is not touched *)

Lemma preserves_ret {A : Type} (r : loc) (a : A) : preserves r (ret a).
Proof. intros h. reflexivity. Qed.

Lemma preserves_raise {A : Type} (r : loc) (e : exn) : preserves r (@raise heap A e).
Proof. intros h. reflexivity. Qed.

Lemma preserves_lift {A : Type} (r : loc) (x : pyresult A) : preserves r (lift x).
Proof. intros h. reflexivity. Qed.

Lemma preserves_read (r r' : loc) : preserves r (read r').
Proof. intros h. unfold read. destruct (h !! r'); reflexivity. Qed.

Lemma preserves_write (r r' : loc) (d : DStability) : r' <> r -> preserves r (write r' d).
Proof. intros Hne h. unfold write. simpl. now apply lookup_insert_ne. Qed.

Lemma preserves_bind {A B : Type} (r : loc) (m : M A) (k : A -> M B) :
  preserves r m -> (forall a, preserves r (k a)) -> preserves r (bindM m k).
Proof.
  intros Hm Hk h. unfold bindM. specialize (Hm h).
  destruct (m h) as [[a|e] h1]; simpl in *.
  - now rewrite Hk.
  - exact Hm.
Qed.

Lemma preserves_deepcopy_bind {B : Type} (r : loc) (k : loc -> M B) :
  (forall r', r' <> r -> preserves r (k r')) -> preserves r (bindM (deepcopy r) k).
Proof.
  intros Hk h. unfold bindM, deepcopy.
  destruct (h !! r) as [d|] eqn:Hr; simpl; [|exact Hr].
  assert (fresh (dom h) <> r) as Hne.
  { intros Heq. apply (is_fresh (dom h)). rewrite Heq. apply elem_of_dom. eauto. }
  rewrite (Hk _ Hne). rewrite lookup_insert_ne by exact Hne. exact Hr.
Qed.

Lemma returns_ret {A : Type} (a : A) : returns a (@ret heap A a).
Proof. intros h h' a' Heq. now inversion Heq. Qed.

Lemma returns_raise {A : Type} (a : A) (e : exn) : returns a (@raise heap A e).
Proof. intros h h' a' Heq. inversion Heq. Qed.

Lemma returns_bind {A B : Type} (b : B) (m : M A) (k : A -> M B) :
  (forall a, returns b (k a)) -> returns b (bindM m k).
Proof.
  intros Hk h h' b' Heq. unfold bindM in Heq.
  destruct (m h) as [[a|e] h1]; [now apply (Hk a h1 h') | inversion Heq].
Qed.

(** The copy is a new object. *)
Lemma deepcopy_bind_fresh {B : Type} (r : loc) (k : loc -> M B) (h h' : heap) (b : B) :
  bindM (deepcopy r) k h = (Ok b, h') ->
  fresh (dom h) <> r /\ h !! fresh (dom h) = None
  /\ exists d, h !! r = Some d /\ k (fresh (dom h)) (<[fresh (dom h) := d]> h) = (Ok b, h').
Proof.
  unfold bindM, deepcopy. destruct (h !! r) as [d|] eqn:Hr; [|discriminate].
  intros Hk. split; [|split].
  - intros Heq. apply (is_fresh (dom h)). rewrite Heq. apply elem_of_dom. eauto.
  - apply not_elem_of_dom. apply is_fresh.
  - eauto.
Qed.

Section Frame.
Context `{Collaborators}.

Lemma preserves_add_layer_at (r ds : loc) (pts : list Point) (code label : option string) :
  ds <> r -> preserves r (AlgorithmBermWSBD.add_layer_at ds pts code label).
Proof.
  intros Hne. unfold AlgorithmBermWSBD.add_layer_at.
  apply preserves_bind; [apply preserves_read|]. intros d.
  apply preserves_bind; [apply preserves_lift|]. intros d'.
  now apply preserves_write.
Qed.

Lemma preserves_add_berm_layers (self : AlgorithmBermWSBD.t) (r ds : loc) (pB : Point)
  (intersections : list Point) :
  ds <> r -> preserves r (AlgorithmBermWSBD.add_berm_layers self ds pB intersections).
Proof.
  intros Hne. remember (length intersections) as n eqn:Hn.
  revert intersections Hn. induction n as [n IH] using lt_wf_ind. intros [|p1 [|p2 rest]] Hn.
  - apply preserves_ret.
  - apply preserves_raise.
  - simpl. apply preserves_bind; [apply preserves_read|]. intros d.
    apply preserves_bind; [now apply preserves_add_layer_at|]. intros _.
    apply (IH (length rest)); [simpl in Hn; lia | reflexivity].
Qed.

Lemma preserves_berm_body (self : AlgorithmBermWSBD.t) (r ds : loc) :
  ds <> r ->
  preserves r
    (do* _ := (if AlgorithmBermWSBD.fill_ditch self
               then AlgorithmBermWSBD.fill_the_ditch self r ds else ret tt) in
     if Qle_bool (AlgorithmBermWSBD.width self) 0 || Qle_bool (AlgorithmBermWSBD.height self) 0
     then ret ds else AlgorithmBermWSBD.build_berm self ds).
Proof.
  intros Hne. apply preserves_bind.
  - destruct (AlgorithmBermWSBD.fill_ditch self); [|apply preserves_ret].
    unfold AlgorithmBermWSBD.fill_the_ditch.
    apply preserves_bind; [apply preserves_read|]. intros d0.
    apply preserves_bind; [apply preserves_lift|]. intros fp1.
    apply preserves_bind; [apply preserves_lift|]. intros fp2.
    now apply preserves_add_layer_at.
  - intros _.
    destruct (Qle_bool (AlgorithmBermWSBD.width self) 0
              || Qle_bool (AlgorithmBermWSBD.height self) 0); [apply preserves_ret|].
    unfold AlgorithmBermWSBD.build_berm.
    apply preserves_bind; [apply preserves_read|]. intros d.
    apply preserves_bind; [apply preserves_lift|]. intros [[[pA pB] pC] intersections].
    unfold AlgorithmBermWSBD.insert_berm.
    destruct (Nat.odd (length intersections)); [apply preserves_raise|].
    apply preserves_bind; [now apply preserves_add_berm_layers|]. intros _.
    apply preserves_ret.
Qed.

Lemma returns_berm_body (self : AlgorithmBermWSBD.t) (r ds : loc) :
  returns ds
    (do* _ := (if AlgorithmBermWSBD.fill_ditch self
               then AlgorithmBermWSBD.fill_the_ditch self r ds else ret tt) in
     if Qle_bool (AlgorithmBermWSBD.width self) 0 || Qle_bool (AlgorithmBermWSBD.height self) 0
     then ret ds else AlgorithmBermWSBD.build_berm self ds).
Proof.
  apply returns_bind. intros _.
  destruct (Qle_bool (AlgorithmBermWSBD.width self) 0
            || Qle_bool (AlgorithmBermWSBD.height self) 0); [apply returns_ret|].
  unfold AlgorithmBermWSBD.build_berm.
  apply returns_bind. intros d. apply returns_bind. intros [[[pA pB] pC] intersections].
  unfold AlgorithmBermWSBD.insert_berm.
  destruct (Nat.odd (length intersections)); [apply returns_raise|].
  apply returns_bind. intros _. apply returns_ret.
Qed.

Lemma preserves_phreatic_body (self : AlgorithmPhreaticLine.t) (r ds : loc) :
  ds <> r ->
  preserves r
    (do* d := read ds in
     do* plpoints := lift (AlgorithmPhreaticLine.phreatic_line_points self d) in
     do* _ := write ds (set_phreatic_line d (map snd plpoints)) in
     ret ds).
Proof.
  intros Hne. apply preserves_bind; [apply preserves_read|]. intros d.
  apply preserves_bind; [apply preserves_lift|]. intros plpoints.
  apply preserves_bind; [now apply preserves_write|]. intros _. apply preserves_ret.
Qed.

Lemma returns_phreatic_body (self : AlgorithmPhreaticLine.t) (ds : loc) :
  returns ds
    (do* d := read ds in
     do* plpoints := lift (AlgorithmPhreaticLine.phreatic_line_points self d) in
     do* _ := write ds (set_phreatic_line d (map snd plpoints)) in
     ret ds).
Proof. repeat (apply returns_bind; intros ?). apply returns_ret. Qed.

(** C2. Whatever the store, the reference held by the algorithm and the
    parameters are, running the berm algorithm or the phreatic-line
    algorithm leaves the object behind the caller's reference as it was,
    whether the run returns or raises; and when a run returns, it returns
    a reference that was not in use before, different from the caller's:
    the changes were made on the copy. *)
Theorem execute_leaves_input_unchanged (berm_alg : AlgorithmBermWSBD.t)
  (pl_alg : AlgorithmPhreaticLine.t) (r : loc) (h : heap) :
  snd (AlgorithmBermWSBD._execute berm_alg r h) !! r = h !! r
  /\ snd (AlgorithmPhreaticLine._execute pl_alg r h) !! r = h !! r
  /\ forall r' : loc,
       fst (AlgorithmBermWSBD._execute berm_alg r h) = Ok r'
       \/ fst (AlgorithmPhreaticLine._execute pl_alg r h) = Ok r' ->
       r' <> r /\ h !! r' = None.
Proof.
  split; [|split].
  - apply (preserves_deepcopy_bind r). intros ds Hne. now apply preserves_berm_body.
  - apply (preserves_deepcopy_bind r). intros ds Hne. now apply preserves_phreatic_body.
  - intros r' [Hr|Hr].
    + destruct (AlgorithmBermWSBD._execute berm_alg r h) as [res h'] eqn:He.
      simpl in Hr. subst res.
      apply deepcopy_bind_fresh in He as (Hne & Hnone & d & Hd & He).
      apply returns_berm_body in He. now subst r'.
    + destruct (AlgorithmPhreaticLine._execute pl_alg r h) as [res h'] eqn:He.
      simpl in Hr. subst res.
      apply deepcopy_bind_fresh in He as (Hne & Hnone & d & Hd & He).
      apply returns_phreatic_body in He. now subst r'.
Qed.

End Frame.

(** ** The berm: the start point and the layers *)



Section Berm.
Context `{Collaborators}.


Lemma build_berm_unfold (self : AlgorithmBermWSBD.t) (ds : loc) (h : heap) (d : DStability) :
  h !! ds = Some d ->
  AlgorithmBermWSBD.build_berm self ds h
  = match AlgorithmBermWSBD.berm_points self d with
    | Ok (pA, pB, pC, intersections) => AlgorithmBermWSBD.insert_berm self ds pB intersections h
    | Raise e => (Raise e, h)
    end.
Proof.
  intros Hd. unfold AlgorithmBermWSBD.build_berm, bindM, read, lift. rewrite Hd.
  destruct (AlgorithmBermWSBD.berm_points self d) as [[[[pA pB] pC] intersections]|e];
    reflexivity.
Qed.


(** *** The run of [_execute] up to the berm *)

Lemma fresh_not_in_use (h : heap) (r : loc) (d : DStability) :
  h !! r = Some d -> fresh (dom h) <> r.
Proof.
  intros Hd Heq. apply (is_fresh (dom h)). rewrite Heq. apply elem_of_dom. eauto.
Qed.

(** After the copy and the ditch-fill step the store holds, next to what it
    held, the copy with the value [d1]; the berm is built on it. *)
Lemma execute_after_ditch_fill (self : AlgorithmBermWSBD.t) (r : loc) (h : heap)
  (d d1 : DStability) :
  h !! r = Some d ->
  after_ditch_fill self d d1 ->
  AlgorithmBermWSBD._execute self r h
  = (if Qle_bool (AlgorithmBermWSBD.width self) 0 || Qle_bool (AlgorithmBermWSBD.height self) 0
     then ret (fresh (dom h))
     else AlgorithmBermWSBD.build_berm self (fresh (dom h))) (<[fresh (dom h) := d1]> h).
Proof.
  intros Hd Hditch. pose proof (fresh_not_in_use h r d Hd) as Hne.
  unfold AlgorithmBermWSBD._execute, bindM, deepcopy. rewrite Hd.
  unfold after_ditch_fill in Hditch.
  destruct (AlgorithmBermWSBD.fill_ditch self).
  - destruct Hditch as (fp1 & fp2 & H1 & H2 & Hadd).
    unfold AlgorithmBermWSBD.fill_the_ditch, AlgorithmBermWSBD.add_layer_at, bindM, read, lift,
      write.
    rewrite lookup_insert_ne by exact Hne. rewrite Hd, H1, H2.
    rewrite lookup_insert_eq, Hadd, insert_insert_eq. reflexivity.
  - subst d1. reflexivity.
Qed.

(** The berm on a copy that holds [d1]. *)
Lemma execute_builds_berm (self : AlgorithmBermWSBD.t) (r : loc) (h : heap)
  (d d1 : DStability) :
  h !! r = Some d ->
  after_ditch_fill self d d1 ->
  Qle_bool (AlgorithmBermWSBD.width self) 0 || Qle_bool (AlgorithmBermWSBD.height self) 0
  = false ->
  AlgorithmBermWSBD._execute self r h
  = match AlgorithmBermWSBD.berm_points self d1 with
    | Ok (pA, pB, pC, intersections) =>
        AlgorithmBermWSBD.insert_berm self (fresh (dom h)) pB intersections
          (<[fresh (dom h) := d1]> h)
    | Raise e => (Raise e, <[fresh (dom h) := d1]> h)
    end.
Proof.
  intros Hd Hditch Hberm. rewrite (execute_after_ditch_fill self r h d d1 Hd Hditch), Hberm.
  apply build_berm_unfold. apply lookup_insert_eq.
Qed.

Lemma fold_insert_pair_Raise (self : AlgorithmBermWSBD.t) (pB : Point)
  (l : list (Point * Point)) (e : exn) :
  fold_left (insert_pair self pB) l (Raise e) = Raise e.
Proof. induction l as [|pair l IH]; [reflexivity | exact IH]. Qed.

(** One round of the loop over the pairs. *)
Lemma add_berm_layers_step (self : AlgorithmBermWSBD.t) (ds : loc) (pB p1 p2 : Point)
  (rest : list Point) (h : heap) (d : DStability) :
  h !! ds = Some d ->
  AlgorithmBermWSBD.add_berm_layers self ds pB (p1 :: p2 :: rest) h
  = match add_layer d (AlgorithmBermWSBD.layer_points d pB p1 p2)
            (Some (AlgorithmBermWSBD.soilcode self)) None with
    | Ok d2 => AlgorithmBermWSBD.add_berm_layers self ds pB rest (<[ds := d2]> h)
    | Raise e => (Raise e, h)
    end.
Proof.
  intros Hd. cbn [AlgorithmBermWSBD.add_berm_layers].
  unfold bindM at 1. unfold read at 1. rewrite Hd.
  unfold AlgorithmBermWSBD.add_layer_at. unfold bindM at 1. unfold bindM at 1.
  unfold read at 1. rewrite Hd. unfold bindM at 1. unfold lift at 1.
  destruct (add_layer d (AlgorithmBermWSBD.layer_points d pB p1 p2)
              (Some (AlgorithmBermWSBD.soilcode self)) None) as [d2|e]; reflexivity.
Qed.

(** The loop over an even number of intersections is the chain of the
    [add_layer] calls of its pairs: it stops at the first call that raises,
    and when all return, the copy holds the answer of the last. *)
Lemma add_berm_layers_run (self : AlgorithmBermWSBD.t) (ds : loc) (pB : Point)
  (intersections : list Point) :
  Nat.odd (length intersections) = false ->
  forall (h : heap) (d : DStability),
  h !! ds = Some d ->
  fst (AlgorithmBermWSBD.add_berm_layers self ds pB intersections h)
  = result_map (fun _ => tt) (fold_left (insert_pair self pB) (pairs intersections) (Ok d))
  /\ forall d' : DStability,
       fold_left (insert_pair self pB) (pairs intersections) (Ok d) = Ok d' ->
       AlgorithmBermWSBD.add_berm_layers self ds pB intersections h = (Ok tt, <[ds := d']> h).
Proof.
  remember (length intersections) as n eqn:Hn. revert intersections Hn.
  induction n as [n IH] using lt_wf_ind. intros [|p1 [|p2 rest]] Hn Hodd h d Hd.
  - split; [reflexivity|]. intros d' [= <-]. simpl. unfold ret.
    rewrite insert_id by exact Hd. reflexivity.
  - subst n. discriminate.
  - rewrite (add_berm_layers_step self ds pB p1 p2 rest h d Hd).
    cbn [pairs fold_left].
    change (insert_pair self pB (Ok d) (p1, p2))
      with (add_layer d (AlgorithmBermWSBD.layer_points d pB p1 p2)
              (Some (AlgorithmBermWSBD.soilcode self)) None).
    destruct (add_layer d (AlgorithmBermWSBD.layer_points d pB p1 p2)
                (Some (AlgorithmBermWSBD.soilcode self)) None) as [d2|e] eqn:Hadd.
    + destruct (IH (length rest)) with (intersections := rest) (h := <[ds := d2]> h) (d := d2)
        as (Hfst & Hrun).
      * subst n. simpl. lia.
      * reflexivity.
      * subst n. simpl in Hodd. rewrite Nat.odd_succ, Nat.even_succ in Hodd. exact Hodd.
      * apply lookup_insert_eq.
      * split; [exact Hfst|]. intros d' Hd'. rewrite (Hrun d' Hd'), insert_insert_eq.
        reflexivity.
    + rewrite fold_insert_pair_Raise. split; [reflexivity | discriminate].
Qed.

(** The berm of an even number of intersections, as a run of [_execute]. *)
Lemma execute_inserts_pairs (self : AlgorithmBermWSBD.t) (r : loc) (h : heap)
  (d d1 : DStability) (pA pB pC : Point) (intersections : list Point) :
  h !! r = Some d ->
  after_ditch_fill self d d1 ->
  Qle_bool (AlgorithmBermWSBD.width self) 0 || Qle_bool (AlgorithmBermWSBD.height self) 0
  = false ->
  AlgorithmBermWSBD.berm_points self d1 = Ok (pA, pB, pC, intersections) ->
  Nat.odd (length intersections) = false ->
  fst (AlgorithmBermWSBD._execute self r h)
  = result_map (fun _ => fresh (dom h))
      (fold_left (insert_pair self pB) (pairs intersections) (Ok d1))
  /\ forall d' : DStability,
       fold_left (insert_pair self pB) (pairs intersections) (Ok d1) = Ok d' ->
       AlgorithmBermWSBD._execute self r h = (Ok (fresh (dom h)), <[fresh (dom h) := d']> h).
Proof.
  intros Hd Hditch Hberm Hpts Heven.
  rewrite (execute_builds_berm self r h d d1 Hd Hditch Hberm), Hpts.
  unfold AlgorithmBermWSBD.insert_berm. rewrite Heven. unfold bindM.
  destruct (add_berm_layers_run self (fresh (dom h)) pB intersections Heven
              (<[fresh (dom h) := d1]> h) d1 (lookup_insert_eq _ _ _)) as (Hfst & Hrun).
  split.
  - destruct (AlgorithmBermWSBD.add_berm_layers self (fresh (dom h)) pB intersections
                (<[fresh (dom h) := d1]> h)) as [[u|e'] h'];
      destruct (fold_left (insert_pair self pB) (pairs intersections) (Ok d1)) as [d'|e];
      simpl in Hfst; try discriminate.
    + reflexivity.
    + injection Hfst as <-. reflexivity.
  - intros d' Hd'. rewrite (Hrun d' Hd'), insert_insert_eq. reflexivity.
Qed.


(** C8, as amended. Every layer that a run of [_execute] inserts is closed
    along the ground by the surface points whose x lies between the x of
    its two bounding points, the bounds included, in the reverse of their
    order on the surface. The ditch fill is [fp1; fp2] closed along the
    surface of the input; the layer of a pair is the pair, with pB between
    the two when its x lies strictly between theirs, closed along the
    surface that the copy has when the layer is inserted. The run is the
    chain of the [add_layer] calls with these polygons and no others. *)
Theorem execute_layers_closed_along_surface (self : AlgorithmBermWSBD.t) (r : loc)
  (h : heap) (d d1 : DStability) :
  h !! r = Some d ->
  (if AlgorithmBermWSBD.fill_ditch self then
     exists fp1 fp2 : Point,
       get_closest_point_from_x d (AlgorithmBermWSBD.ditch_embankement_side self) = Ok fp1
       /\ get_closest_point_from_x d (AlgorithmBermWSBD.ditch_land_side self) = Ok fp2
       /\ add_layer d (closed_along_surface (surface d) [fp1; fp2] (fst fp1) (fst fp2))
            (AlgorithmBermWSBD.ditch_soilcode self) (Some "ditch fill"%string) = Ok d1
   else d1 = d) ->
  let copy := fresh (dom h) in
  (forall (left right : Q) (ground : list Point) (p : Point),
     In p (List.filter (between_inclusive left right) ground)
     <-> In p ground /\ left <= fst p /\ fst p <= right)
  /\ if Qle_bool (AlgorithmBermWSBD.width self) 0 || Qle_bool (AlgorithmBermWSBD.height self) 0
     then AlgorithmBermWSBD._execute self r h = (Ok copy, <[copy := d1]> h)
     else
       forall (pA pB pC : Point) (intersections : list Point),
       AlgorithmBermWSBD.berm_points self d1 = Ok (pA, pB, pC, intersections) ->
       Nat.odd (length intersections) = false ->
       let insert (acc : pyresult DStability) (pair : Point * Point) :=
         let* d' := acc in
         add_layer d'
           (closed_along_surface (surface d')
              (if Qlt_bool (fst (fst pair)) (fst pB) && Qlt_bool (fst pB) (fst (snd pair))
               then [fst pair; pB; snd pair] else [fst pair; snd pair])
              (fst (fst pair)) (fst (snd pair)))
           (Some (AlgorithmBermWSBD.soilcode self)) None in
       fst (AlgorithmBermWSBD._execute self r h)
       = result_map (fun _ => copy) (fold_left insert (pairs intersections) (Ok d1))
       /\ forall d' : DStability,
            fold_left insert (pairs intersections) (Ok d1) = Ok d' ->
            AlgorithmBermWSBD._execute self r h = (Ok copy, <[copy := d']> h).
Proof.
  intros Hd Hditch copy. split; [intros left right ground p; apply between_inclusive_In|].
  assert (after_ditch_fill self d d1) as Hstep by exact Hditch.
  destruct (Qle_bool (AlgorithmBermWSBD.width self) 0
            || Qle_bool (AlgorithmBermWSBD.height self) 0) eqn:Hberm.
  - rewrite (execute_after_ditch_fill self r h d d1 Hd Hstep), Hberm. reflexivity.
  - intros pA pB pC intersections Hpts Heven insert.
    exact (execute_inserts_pairs self r h d d1 pA pB pC intersections Hd Hstep Hberm Hpts Heven).
Qed.

End Berm.


Lemma execute_layers_closed_along_surface_witness :
  exists d' : DStability,
    Layers d'
    = Layers levee_with_filled_ditch
      ++ [mkLayer [(19, 5 # 2); (25, 38 # 20); (269 # 10, 0); (24, 0)]
            (Some "clay"%string) None]
    /\ AlgorithmBermWSBD._execute berm_and_ditch 1%positive {[ 1%positive := levee_with_ditch ]}
       = (Ok (fresh (dom ({[ 1%positive := levee_with_ditch ]} : heap))),
          <[fresh (dom ({[ 1%positive := levee_with_ditch ]} : heap)) := d']>
            {[ 1%positive := levee_with_ditch ]}).
Proof.
  assert (({[ 1%positive := levee_with_ditch ]} : heap) !! 1%positive = Some levee_with_ditch)
    as Hd by reflexivity.
  assert (AlgorithmBermWSBD.berm_points berm_and_ditch levee_with_filled_ditch
          = Ok ((19, 5 # 2), (25, 38 # 20), (269 # 10, 0), [(19, 5 # 2); (269 # 10, 0)]))
    as Hpts by (vm_compute; reflexivity).
  destruct (@execute_layers_closed_along_surface reference_collaborators berm_and_ditch
              1%positive {[ 1%positive := levee_with_ditch ]} levee_with_ditch
              levee_with_filled_ditch Hd)
    as (_ & Hrun).
  { exists (30, 0), (34, 0). split; [vm_compute; reflexivity|].
    split; vm_compute; reflexivity. }
  destruct (Hrun _ _ _ _ Hpts eq_refl) as (_ & Hrun').
  eexists. split; [|apply Hrun'; reflexivity]. reflexivity.
Defined.


(** C8, as stated, fails: the ditch fill that a run of [_execute] inserts
    between (30, 0) and (34, 0) is closed by four surface points, and the
    first and the last of them, (34, 0) and (30, 0), stand at the bounds,
    not strictly between them. *)
Lemma ditch_fill_closed_through_bounds :
  let run := AlgorithmBermWSBD._execute fill_ditch_only 1%positive
               {[ 1%positive := levee_with_ditch ]} in
  fst run = Ok 2%positive
  /\ (Layers <$> snd run !! 2%positive)
     = Some (Layers levee_with_ditch
             ++ [mkLayer ([(30, 0); (34, 0)] ++ [(34, 0); (33, -1); (31, -1); (30, 0)])
                   (Some "sand"%string) (Some "ditch fill"%string)])
  /\ List.filter (fun p : Point => Qlt_bool 30 (fst p) && Qlt_bool (fst p) 34)
       (surface levee_with_ditch)
     = [(31, -1); (33, -1)]
  /\ In ((34, 0) : Point) (surface levee_with_ditch)
  /\ ~ (fst ((34, 0) : Point) < 34).
Proof.
  split; [vm_compute; reflexivity|].
  split; [vm_compute; reflexivity|].
  split; [vm_compute; reflexivity|].
  split; [vm_compute; auto 10|].
  simpl. lra.
Qed.


(** * Further properties *)

(** ** The registry: setting a landmark *)

Lemma first_of_type_app_absent (t : CharacteristicPointType)
  (before after : list CharacteristicPoint) :
  Forall (fun c => point_type c <> t) before ->
  first_of_type t (before ++ after) = first_of_type t after.
Proof.
  induction before as [|c before IH]; simpl; intros Hb; [reflexivity|].
  inversion Hb as [|? ? Hc Hb']; subst.
  destruct (decide (point_type c = t)); [contradiction | now apply IH].
Qed.

Lemma filter_type_app (t : CharacteristicPointType) (l1 l2 : list CharacteristicPoint) :
  filter (fun cp => point_type cp = t) (l1 ++ l2)
  = filter (fun cp => point_type cp = t) l1 ++ filter (fun cp => point_type cp = t) l2.
Proof. apply filter_app. Qed.

Lemma filter_type_retyped (x0 : pyfloat) (t t' : CharacteristicPointType)
  (cps : list CharacteristicPoint) :
  t' <> t ->
  filter (fun cp => point_type cp = t')
    (map (fun cp => if decide (point_type cp = t)
                    then mkCharacteristicPoint x0 (point_type cp) else cp) cps)
  = filter (fun cp => point_type cp = t') cps.
Proof.
  intros Hne. induction cps as [|c cps IH]; [reflexivity|].
  simpl map. rewrite !filter_cons, IH.
  destruct (decide (point_type c = t)) as [Hc|Hc]; simpl.
  - destruct (decide (point_type c = t')); [congruence | reflexivity].
  - reflexivity.
Qed.

Lemma length_filter_type_retyped (x0 : pyfloat) (t t0 : CharacteristicPointType)
  (cps : list CharacteristicPoint) :
  length (filter (fun cp => point_type cp = t0)
            (map (fun cp => if decide (point_type cp = t)
                            then mkCharacteristicPoint x0 (point_type cp) else cp) cps))
  = length (filter (fun cp => point_type cp = t0) cps).
Proof.
  induction cps as [|c cps IH]; [reflexivity|].
  simpl map. rewrite !filter_cons.
  destruct (decide (point_type c = t)) as [Hc|Hc]; simpl.
  - destruct (decide (point_type c = t0)); simpl; now rewrite IH.
  - destruct (decide (point_type c = t0)); simpl; now rewrite IH.
Qed.

Lemma first_of_type_retyped (x0 : pyfloat) (t t' : CharacteristicPointType)
  (cps : list CharacteristicPoint) :
  t' <> t ->
  first_of_type t'
    (map (fun cp => if decide (point_type cp = t)
                    then mkCharacteristicPoint x0 (point_type cp) else cp) cps)
  = first_of_type t' cps.
Proof.
  intros Hne. induction cps as [|c cps IH]; [reflexivity|]. simpl.
  destruct (decide (point_type c = t)) as [Hc|Hc]; simpl.
  - destruct (decide (point_type c = t')); [congruence | exact IH].
  - destruct (decide (point_type c = t')); [reflexivity | exact IH].
Qed.

Lemma filter_type_absent (t : CharacteristicPointType) (cps : list CharacteristicPoint) :
  Forall (fun c => point_type c <> t) cps -> filter (fun cp => point_type cp = t) cps = [].
Proof.
  induction cps as [|c cps IH]; intros Hall; [reflexivity|].
  inversion Hall as [|? ? Hc Hall']; subst. rewrite filter_cons.
  destruct (decide (point_type c = t)); [contradiction | now apply IH].
Qed.

(** What [set_characteristic_point] does to the list of landmarks. *)
Lemma set_characteristic_point_cases (ds : DStability) (x0 : pyfloat)
  (t : CharacteristicPointType) :
  (characteristic_points (set_characteristic_point ds x0 t)
   = characteristic_points ds ++ [mkCharacteristicPoint x0 t]
   /\ (t ∈ singular_types -> Forall (fun c => point_type c <> t) (characteristic_points ds)))
  \/ ((t ∈ singular_types)
      /\ characteristic_points (set_characteristic_point ds x0 t)
         = map (fun cp => if decide (point_type cp = t)
                          then mkCharacteristicPoint x0 (point_type cp) else cp)
               (characteristic_points ds)
      /\ exists before cp after,
           characteristic_points ds = before ++ cp :: after /\ point_type cp = t
           /\ Forall (fun c => point_type c <> t) before).
Proof.
  unfold set_characteristic_point, get_characteristic_point.
  destruct (decide (t ∈ singular_types)) as [Hs|Hs]; [|left; split; [reflexivity|tauto]].
  pose proof (first_of_type_spec t (characteristic_points ds)) as Hf.
  destruct (first_of_type t (characteristic_points ds)) as [| | |cp|]; try contradiction.
  - left. split; [reflexivity | auto].
  - right. destruct Hf as (before & after & Hcps & Ht & Hb).
    split; [exact Hs|]. split; [reflexivity|]. eauto 6.
Qed.

(** X1. Reading a landmark type back after setting it: for a singular type
    the answer is the single point with the coordinate that was set; for
    any other type it is the list of the entries the registry had for the
    type, in their order, followed by the new entry. *)
Theorem get_after_set_characteristic_point (ds : DStability) (x0 : pyfloat)
  (t : CharacteristicPointType) :
  get_characteristic_point (set_characteristic_point ds x0 t) t
  = if decide (t ∈ singular_types) then VCharPoint (mkCharacteristicPoint x0 t)
    else VCharPointList
           (filter (fun cp => point_type cp = t) (characteristic_points ds)
            ++ [mkCharacteristicPoint x0 t]).
Proof.
  unfold get_characteristic_point at 1.
  destruct (set_characteristic_point_cases ds x0 t) as [[-> Habs]|(Hs & -> & Hsplit)].
  - destruct (decide (t ∈ singular_types)) as [Hs|Hs].
    + rewrite (first_of_type_app_absent t _ _ (Habs Hs)). simpl.
      destruct (decide (t = t)); [reflexivity | contradiction].
    + rewrite filter_type_app. rewrite (filter_cons _ (mkCharacteristicPoint x0 t)).
      simpl. destruct (decide (t = t)); [|contradiction].
      destruct (filter (fun cp => point_type cp = t) (characteristic_points ds)); reflexivity.
  - destruct (decide (t ∈ singular_types)) as [_|Hn]; [|contradiction].
    destruct Hsplit as (before & cp & after & -> & Ht & Hb).
    rewrite map_app. rewrite first_of_type_app_absent.
    + simpl. destruct (decide (point_type cp = t)); [|contradiction]. simpl.
      destruct (decide (point_type cp = t)); [|contradiction]. now rewrite Ht.
    + clear -Hb. induction before as [|c before IH]; [constructor|].
      inversion Hb as [|? ? Hc Hb']; subst. simpl. constructor; [|now apply IH].
      destruct (decide (point_type c = t)); [contradiction | exact Hc].
Qed.

(** X2. Setting a landmark of one type does not change what the registry
    answers for any other type. *)
Theorem get_other_after_set_characteristic_point (ds : DStability) (x0 : pyfloat)
  (t t' : CharacteristicPointType) :
  t' <> t ->
  get_characteristic_point (set_characteristic_point ds x0 t) t'
  = get_characteristic_point ds t'.
Proof.
  intros Hne. unfold get_characteristic_point.
  destruct (set_characteristic_point_cases ds x0 t) as [[-> _]|(_ & -> & _)].
  - destruct (decide (t' ∈ singular_types)).
    + pose proof (first_of_type_spec t' (characteristic_points ds)) as Hf.
      destruct (first_of_type t' (characteristic_points ds)) as [| | |cp|] eqn:Hfirst;
        try contradiction.
      * rewrite (first_of_type_app_absent t' _ _ Hf). simpl.
        destruct (decide (t = t')); [congruence | reflexivity].
      * destruct Hf as (before & after & Hcps & Ht & Hb). rewrite Hcps, <- app_assoc.
        rewrite (first_of_type_app_absent t' _ _ Hb). simpl.
        destruct (decide (point_type cp = t')); [reflexivity | contradiction].
    + rewrite filter_type_app. rewrite (filter_cons _ (mkCharacteristicPoint x0 t)). simpl.
      destruct (decide (t = t')); [congruence|]. now rewrite app_nil_r.
  - rewrite (first_of_type_retyped x0 t t' _ Hne), (filter_type_retyped x0 t t' _ Hne).
    reflexivity.
Qed.

Lemma get_other_after_set_characteristic_point_witness :
  DITCH_LAND_SIDE <> TOE_RIGHT
  /\ get_characteristic_point
       (set_characteristic_point (levee_with toe_and_ditch (Num 24)) (Num 26) TOE_RIGHT)
       DITCH_LAND_SIDE
     = get_characteristic_point (levee_with toe_and_ditch (Num 24)) DITCH_LAND_SIDE.
Proof.
  split; [discriminate|].
  apply (get_other_after_set_characteristic_point (levee_with toe_and_ditch (Num 24))
           (Num 26) TOE_RIGHT DITCH_LAND_SIDE).
  discriminate.
Defined.

(** X3. A registry in which no singular type has two entries stays so
    when a landmark of any type is set. *)
Theorem set_characteristic_point_keeps_singular_unique (ds : DStability) (x0 : pyfloat)
  (t : CharacteristicPointType) :
  singular_unique (characteristic_points ds) ->
  singular_unique (characteristic_points (set_characteristic_point ds x0 t)).
Proof.
  intros Huniq t0 Ht0.
  destruct (set_characteristic_point_cases ds x0 t) as [[-> Habs]|(_ & -> & _)].
  - rewrite filter_type_app, length_app. rewrite (filter_cons _ (mkCharacteristicPoint x0 t)).
    simpl. destruct (decide (t = t0)) as [->|Hne]; simpl.
    + rewrite (filter_type_absent t0 _ (Habs Ht0)). simpl. lia.
    + specialize (Huniq t0 Ht0). lia.
  - rewrite length_filter_type_retyped. now apply Huniq.
Qed.

Lemma set_characteristic_point_keeps_singular_unique_witness :
  singular_unique (characteristic_points (levee_with toe_and_ditch (Num 24)))
  /\ singular_unique
       (characteristic_points
          (set_characteristic_point (levee_with toe_and_ditch (Num 24)) (Num 26) TOE_RIGHT)).
Proof.
  assert (singular_unique (characteristic_points (levee_with toe_and_ditch (Num 24)))) as Hu.
  { intros t _. change (characteristic_points (levee_with toe_and_ditch (Num 24)))
      with toe_and_ditch.
    unfold toe_and_ditch. rewrite !filter_cons, filter_nil. simpl.
    destruct (decide (TOE_RIGHT = t)) as [<-|?]; simpl.
    - destruct (decide (DITCH_LAND_SIDE = TOE_RIGHT)); [discriminate | simpl; lia].
    - destruct (decide (DITCH_LAND_SIDE = t)); simpl; lia. }
  split; [exact Hu|].
  exact (set_characteristic_point_keeps_singular_unique
           (levee_with toe_and_ditch (Num 24)) (Num 26) TOE_RIGHT Hu).
Defined.

(** X4. After a landmark of a singular type is set, every entry of that
    type in the registry carries the new coordinate, also when the
    registry had several entries of the type. *)
Theorem set_characteristic_point_rewrites_all (ds : DStability) (x0 : pyfloat)
  (t : CharacteristicPointType) :
  t ∈ singular_types ->
  Forall (fun cp => point_type cp = t -> x cp = x0)
    (characteristic_points (set_characteristic_point ds x0 t)).
Proof.
  intros Hs. destruct (set_characteristic_point_cases ds x0 t) as [[-> Habs]|(_ & -> & _)].
  - apply Forall_app. split.
    + eapply Forall_impl; [exact (Habs Hs)|]. intros c Hc Ht. contradiction.
    + constructor; [reflexivity | constructor].
  - apply Forall_forall. intros c Hc Ht.
    apply list_elem_of_fmap in Hc as (c0 & -> & _).
    destruct (decide (point_type c0 = t)); [reflexivity | contradiction].
Qed.

Lemma set_characteristic_point_rewrites_all_witness :
  (TOE_RIGHT ∈ singular_types)
  /\ Forall (fun cp => point_type cp = TOE_RIGHT -> x cp = Num 26)
       (characteristic_points
          (set_characteristic_point (levee_with some_landmarks (Num 24)) (Num 26) TOE_RIGHT)).
Proof.
  assert (TOE_RIGHT ∈ singular_types) as Hs.
  { apply (bool_decide_eq_true_1 (TOE_RIGHT ∈ singular_types)). reflexivity. }
  split; [exact Hs|].
  exact (set_characteristic_point_rewrites_all (levee_with some_landmarks (Num 24)) (Num 26)
           TOE_RIGHT Hs).
Defined.

(** ** The limits of the geometry *)

(** X5. The four limits exist exactly when the geometry has points; they
    are coordinates of points of the geometry, and every point lies within
    them. Without points each of them raises [ValueError]. *)
Theorem limits_bound_the_points (ds : DStability) :
  match points ds with
  | [] =>
      left ds = Raise (ValueError (Msg "min() arg is an empty sequence"))
      /\ right ds = Raise (ValueError (Msg "max() arg is an empty sequence"))
      /\ top ds = Raise (ValueError (Msg "max() arg is an empty sequence"))
      /\ bottom ds = Raise (ValueError (Msg "min() arg is an empty sequence"))
  | _ :: _ =>
      exists l r t b : Q,
        left ds = Ok l /\ right ds = Ok r /\ top ds = Ok t /\ bottom ds = Ok b
        /\ In l (map fst (points ds)) /\ In r (map fst (points ds))
        /\ In t (map snd (points ds)) /\ In b (map snd (points ds))
        /\ forall p, In p (points ds) ->
             l <= fst p /\ fst p <= r /\ b <= snd p /\ snd p <= t
  end.
Proof.
  unfold left, right, top, bottom.
  destruct (points ds) as [|p0 pts] eqn:Hpts; [repeat split|].
  destruct (Qmin_list_spec (map fst (p0 :: pts))) as (l & Hl & Hlin & Hlmin); [discriminate|].
  destruct (Qmax_list_spec (map fst (p0 :: pts))) as (r & Hr & Hrin & Hrmax); [discriminate|].
  destruct (Qmax_list_spec (map snd (p0 :: pts))) as (t & Ht & Htin & Htmax); [discriminate|].
  destruct (Qmin_list_spec (map snd (p0 :: pts))) as (b & Hb & Hbin & Hbmin); [discriminate|].
  exists l, r, t, b. repeat split; auto.
  - apply Hlmin. now apply in_map.
  - apply Hrmax. now apply in_map.
  - apply Hbmin. now apply in_map.
  - apply Htmax. now apply in_map.
Qed.

(** ** Head lines *)

Lemma find_headline_update (hls : list HeadLine) (label : string)
  (coords : list (pyfloat * pyfloat)) :
  match find_headline hls label with
  | Raise e => update_headline hls label coords = Raise e
  | Ok old =>
      if (length old <? length coords)%nat then
        update_headline hls label coords
        = Raise (ValueError (Msg
            ("Trying to set more coords (" ++ string_of_nat (length coords)
             ++ ") then currently in headline '" ++ label ++ "' ("
             ++ string_of_nat (length old) ++ ")")))
      else
        exists hls',
          update_headline hls label coords = Ok hls'
          /\ find_headline hls' label = Ok (coords ++ skipn (length coords) old)
          /\ map hl_label hls' = map hl_label hls
          /\ map is_phreatic_line hls' = map is_phreatic_line hls
          /\ forall other, other <> label -> find_headline hls' other = find_headline hls other
  end.
Proof.
  induction hls as [|hl hls IH]; simpl; [reflexivity|].
  destruct (String.eqb (hl_label hl) label) eqn:Heq.
  - destruct (length (hl_points hl) <? length coords)%nat; [reflexivity|].
    eexists. split; [reflexivity|]. simpl. rewrite Heq. repeat split.
    intros other Hother. apply String.eqb_eq in Heq.
    destruct (String.eqb (hl_label hl) other) eqn:Heq'; [|reflexivity].
    apply String.eqb_eq in Heq'. congruence.
  - destruct (find_headline hls label) as [old|e].
    + destruct (length old <? length coords)%nat; [now rewrite IH|].
      destruct IH as (hls' & -> & Hfind & Hlabels & Hflags & Hother).
      eexists. split; [reflexivity|]. simpl. rewrite Heq, Hlabels, Hflags.
      repeat split; auto. intros other Hne. rewrite (Hother other Hne). reflexivity.
    + now rewrite IH.
Qed.

(** X6. Writing coordinates to a head line: when no head line has the
    label, writing raises the error that reading raises; when more
    coordinates are given than the head line has points, it raises
    [ValueError]; otherwise it succeeds, and reading the head line back
    gives the new coordinates followed by the old points beyond them. *)
Theorem get_after_set_headline_coordinates (ds : DStability) (label : string)
  (coords : list (pyfloat * pyfloat)) :
  match get_headline_coordinates ds label with
  | Raise e => set_headline_coordinates ds label coords = Raise e
  | Ok old =>
      if (length old <? length coords)%nat then
        set_headline_coordinates ds label coords
        = Raise (ValueError (Msg
            ("Trying to set more coords (" ++ string_of_nat (length coords)
             ++ ") then currently in headline '" ++ label ++ "' ("
             ++ string_of_nat (length old) ++ ")")))
      else
        exists ds',
          set_headline_coordinates ds label coords = Ok ds'
          /\ get_headline_coordinates ds' label = Ok (coords ++ skipn (length coords) old)
          /\ length (coords ++ skipn (length coords) old) = length old
  end.
Proof.
  unfold get_headline_coordinates, set_headline_coordinates.
  pose proof (find_headline_update (HeadLines ds) label coords) as H.
  destruct (find_headline (HeadLines ds) label) as [old|e]; [|now rewrite H].
  destruct (length old <? length coords)%nat eqn:Hlen; [now rewrite H|].
  destruct H as (hls' & -> & Hfind & _). eexists. split; [reflexivity|]. split; [exact Hfind|].
  apply Nat.ltb_ge in Hlen. rewrite length_app, length_skipn. lia.
Qed.

(** X7. A successful write to a head line leaves the labels of all head
    lines and the coordinates of the head lines with another label as
    they were. *)
Theorem set_headline_coordinates_keeps_others (ds ds' : DStability) (label : string)
  (coords : list (pyfloat * pyfloat)) :
  set_headline_coordinates ds label coords = Ok ds' ->
  map hl_label (HeadLines ds') = map hl_label (HeadLines ds)
  /\ forall other, other <> label ->
       get_headline_coordinates ds' other = get_headline_coordinates ds other.
Proof.
  unfold get_headline_coordinates, set_headline_coordinates. intros Hset.
  pose proof (find_headline_update (HeadLines ds) label coords) as H.
  destruct (find_headline (HeadLines ds) label) as [old|e].
  - destruct (length old <? length coords)%nat.
    + rewrite H in Hset. discriminate.
    + destruct H as (hls' & Hup & _ & Hlabels & _ & Hother). rewrite Hup in Hset.
      simpl in Hset. inversion Hset; subst. simpl. auto.
  - rewrite H in Hset. discriminate.
Qed.

Lemma set_headline_coordinates_keeps_others_witness :
  exists ds',
    set_headline_coordinates two_headlines "PL 1" [(Num 0, Num 5); (Num 20, Num 3)] = Ok ds'
    /\ map hl_label (HeadLines ds') = map hl_label (HeadLines two_headlines)
    /\ forall other, other <> "PL 1"%string ->
         get_headline_coordinates ds' other = get_headline_coordinates two_headlines other.
Proof.
  eexists. split; [reflexivity|].
  apply (set_headline_coordinates_keeps_others two_headlines _ "PL 1"
           [(Num 0, Num 5); (Num 20, Num 3)]).
  reflexivity.
Defined.

(** ** Scenarios and stages *)

Lemma getitem_nonneg {A : Type} (l : list A) (i : Z) (a : A) :
  (0 <= i)%Z -> nth_error l (Z.to_nat i) = Some a -> getitem l i = Ok a.
Proof.
  intros Hi Hnth. unfold getitem.
  replace (i <? 0)%Z with false by (symmetry; apply Z.ltb_ge; lia).
  replace (i <? 0)%Z with false by (symmetry; apply Z.ltb_ge; lia).
  now rewrite Hnth.
Qed.

Lemma nth_error_lt_length {A : Type} (l : list A) (i : Z) (a : A) :
  (0 <= i)%Z -> nth_error l (Z.to_nat i) = Some a -> (i < Z.of_nat (length l))%Z.
Proof.
  intros Hi Hnth. assert (Z.to_nat i < length l)%nat; [|lia].
  apply nth_error_Some. congruence.
Qed.

(** X8. For a scenario index that is in range, [scenario_label] returns
    the label of the first scenario, whichever scenario the index
    denotes. *)
Theorem scenario_label_of_first (scenarios : list Scenario) (scenario_index : Z)
  (scenario : Scenario) :
  (0 <= scenario_index)%Z ->
  nth_error scenarios (Z.to_nat scenario_index) = Some scenario ->
  exists first rest,
    scenarios = first :: rest
    /\ scenario_label scenarios scenario_index = Ok (ScenarioLabel first).
Proof.
  intros Hi Hnth. pose proof (nth_error_lt_length _ _ _ Hi Hnth) as Hlt.
  destruct scenarios as [|first rest]; [destruct (Z.to_nat scenario_index); discriminate|].
  exists first, rest. split; [reflexivity|]. unfold scenario_label.
  replace (scenario_index <? Z.of_nat (length (first :: rest)))%Z with true
    by (symmetry; apply Z.ltb_lt; exact Hlt).
  reflexivity.
Qed.

Lemma scenario_label_of_first_witness :
  nth_error two_scenarios (Z.to_nat 1) = Some (mkScenario "reinforced" [mkStage "berm"])
  /\ exists first rest,
       two_scenarios = first :: rest
       /\ scenario_label two_scenarios 1 = Ok (ScenarioLabel first).
Proof.
  split; [reflexivity|].
  apply (scenario_label_of_first two_scenarios 1 (mkScenario "reinforced" [mkStage "berm"]));
    [lia | reflexivity].
Defined.

(** X9. For a scenario index in range, [num_stages] is the number of
    stages of that scenario; [stage_label] returns the label of the stage
    for a stage index below that number, and raises [ValueError] naming
    the stage index for a stage index at or above it. *)
Theorem stage_label_within_num_stages (scenarios : list Scenario) (scenario_index : Z)
  (scenario : Scenario) :
  (0 <= scenario_index)%Z ->
  nth_error scenarios (Z.to_nat scenario_index) = Some scenario ->
  num_stages scenarios scenario_index = Ok (length (Stages scenario))
  /\ (forall (stage_index : Z) (stage : Stage),
        (0 <= stage_index)%Z ->
        nth_error (Stages scenario) (Z.to_nat stage_index) = Some stage ->
        stage_label scenarios scenario_index stage_index = Ok (StageLabel stage))
  /\ (forall stage_index : Z,
        (Z.of_nat (length (Stages scenario)) <= stage_index)%Z ->
        stage_label scenarios scenario_index stage_index
        = Raise (ValueError (Msg ("Invalid stage index " ++ string_of_Z stage_index)))).
Proof.
  intros Hi Hnth. pose proof (nth_error_lt_length _ _ _ Hi Hnth) as Hlt.
  apply Z.ltb_lt in Hlt. unfold num_stages, stage_label. rewrite Hlt.
  rewrite (getitem_nonneg _ _ _ Hi Hnth). cbn [bind]. split; [reflexivity|]. split.
  - intros stage_index stage Hs Hstage.
    pose proof (nth_error_lt_length _ _ _ Hs Hstage) as Hslt. apply Z.ltb_lt in Hslt.
    rewrite Hslt. now rewrite (getitem_nonneg _ _ _ Hs Hstage).
  - intros stage_index Hge.
    replace (stage_index <? Z.of_nat (length (Stages scenario)))%Z with false
      by (symmetry; apply Z.ltb_ge; lia).
    reflexivity.
Qed.

Lemma stage_label_within_num_stages_witness :
  num_stages two_scenarios 0 = Ok 2%nat
  /\ stage_label two_scenarios 0 1 = Ok "high water"%string
  /\ stage_label two_scenarios 0 2 = Raise (ValueError (Msg "Invalid stage index 2")).
Proof.
  destruct (stage_label_within_num_stages two_scenarios 0
              (mkScenario "current" [mkStage "initial"; mkStage "high water"]))
    as (Hnum & Hlabel & Herr); [lia | reflexivity |].
  split; [exact Hnum|]. split.
  - apply (Hlabel 1%Z (mkStage "high water")); [lia | reflexivity].
  - apply (Herr 2%Z). simpl. lia.
Defined.

(** X10. The index checks compare with the length only, so a negative
    scenario index passes them: the index -1 denotes the last scenario,
    and an index below minus the number of scenarios raises [IndexError],
    not the [ValueError] of an invalid scenario index. An index at or above
    the number of scenarios raises that [ValueError]. *)
Theorem num_stages_negative_index (scenarios : list Scenario) :
  (forall last : Scenario,
     num_stages (scenarios ++ [last]) (-1) = Ok (length (Stages last)))
  /\ (forall i : Z,
        (i < - Z.of_nat (length scenarios))%Z ->
        num_stages scenarios i = Raise (IndexError (Msg "list index out of range")))
  /\ (forall i : Z,
        (Z.of_nat (length scenarios) <= i)%Z ->
        num_stages scenarios i
        = Raise (ValueError (Msg ("Invalid scenario index " ++ string_of_Z i)))).
Proof.
  split; [|split].
  - intros last. unfold num_stages, getitem. rewrite length_app. simpl length.
    replace (-1 <? Z.of_nat (length scenarios + 1))%Z with true
      by (symmetry; apply Z.ltb_lt; lia).
    change (-1 <? 0)%Z with true. cbv iota.
    replace (-1 + Z.of_nat (length scenarios + 1))%Z with (Z.of_nat (length scenarios)) by lia.
    replace (Z.of_nat (length scenarios) <? 0)%Z with false
      by (symmetry; apply Z.ltb_ge; lia).
    rewrite Nat2Z.id, nth_error_app2 by lia. rewrite Nat.sub_diag. reflexivity.
  - intros i Hi. unfold num_stages, getitem.
    replace (i <? Z.of_nat (length scenarios))%Z with true by (symmetry; apply Z.ltb_lt; lia).
    replace (i <? 0)%Z with true by (symmetry; apply Z.ltb_lt; lia).
    replace (i + Z.of_nat (length scenarios) <? 0)%Z with true
      by (symmetry; apply Z.ltb_lt; lia).
    reflexivity.
  - intros i Hi. unfold num_stages.
    replace (i <? Z.of_nat (length scenarios))%Z with false by (symmetry; apply Z.ltb_ge; lia).
    reflexivity.
Qed.

Lemma getitem_negative {A : Type} (l : list A) (i : Z) (a : A) :
  (i < 0)%Z -> (0 <= i + Z.of_nat (length l))%Z ->
  nth_error l (Z.to_nat (i + Z.of_nat (length l))) = Some a ->
  getitem l i = Ok a.
Proof.
  intros Hneg Hlow Hnth. unfold getitem.
  replace (i <? 0)%Z with true by (symmetry; apply Z.ltb_lt; lia).
  replace (i + Z.of_nat (length l) <? 0)%Z with false by (symmetry; apply Z.ltb_ge; lia).
  now rewrite Hnth.
Qed.

Lemma getitem_below {A : Type} (l : list A) (i : Z) :
  (i < - Z.of_nat (length l))%Z ->
  getitem l i = Raise (IndexError (Msg "list index out of range")).
Proof.
  intros Hlow. unfold getitem.
  replace (i <? 0)%Z with true by (symmetry; apply Z.ltb_lt; lia).
  replace (i + Z.of_nat (length l) <? 0)%Z with true by (symmetry; apply Z.ltb_lt; lia).
  reflexivity.
Qed.

(** Once the scenario index has passed the test and denotes a scenario, it
    is stored, and the stage index decides. *)
Lemma set_scenario_and_stage_stored (scenarios : list Scenario)
  (post_process : StateErr Session unit) (scenario_index stage_index : Z) (s : Session)
  (scenario : Scenario) :
  (scenario_index < Z.of_nat (length scenarios))%Z ->
  getitem scenarios scenario_index = Ok scenario ->
  ((Z.of_nat (length (Stages scenario)) <= stage_index)%Z ->
     set_scenario_and_stage scenarios post_process scenario_index stage_index s
     = (Raise (ValueError (Msg
          ("Trying to set an invalid stage index for scenario "
           ++ string_of_Z scenario_index))),
        mkSession scenario_index (current_stage_index s) (session_ds s)))
  /\ ((stage_index < Z.of_nat (length (Stages scenario)))%Z ->
        set_scenario_and_stage scenarios post_process scenario_index stage_index s
        = post_process (mkSession scenario_index stage_index (session_ds s))).
Proof.
  intros Hlt Hget. apply Z.ltb_lt in Hlt.
  unfold set_scenario_and_stage, bindM, modify, get, lift, raise.
  rewrite Hlt. cbn [set_current_scenario_index current_scenario_index].
  rewrite Hget. split; intros Hs.
  - replace (stage_index <? Z.of_nat (length (Stages scenario)))%Z with false
      by (symmetry; apply Z.ltb_ge; lia).
    reflexivity.
  - replace (stage_index <? Z.of_nat (length (Stages scenario)))%Z with true
      by (symmetry; apply Z.ltb_lt; lia).
    reflexivity.
Qed.

(** X11. [set_scenario_and_stage] is not all-or-nothing. With a scenario
    index at or above the number of scenarios it raises [ValueError] and
    changes nothing. A scenario index below minus the number of scenarios
    passes the test and is stored; then reading the scenario raises
    [IndexError]. A scenario index that denotes a scenario, from the front
    or, when negative, from the end, is stored; with a stage index at or
    above the number of stages of that scenario the call then raises
    [ValueError]: the stage index and the cross-section data are the old
    ones; with a stage index below that number it stores both and runs the
    post-processing. *)
Theorem set_scenario_and_stage_outcomes (scenarios : list Scenario)
  (post_process : StateErr Session unit) (scenario_index stage_index : Z) (s : Session) :
  let run := set_scenario_and_stage scenarios post_process scenario_index stage_index s in
  let stored := mkSession scenario_index (current_stage_index s) (session_ds s) in
  let decided_by_stage (scenario : Scenario) :=
    ((Z.of_nat (length (Stages scenario)) <= stage_index)%Z ->
       run = (Raise (ValueError (Msg
                ("Trying to set an invalid stage index for scenario "
                 ++ string_of_Z scenario_index))),
              stored))
    /\ ((stage_index < Z.of_nat (length (Stages scenario)))%Z ->
          run = post_process (mkSession scenario_index stage_index (session_ds s))) in
  ((Z.of_nat (length scenarios) <= scenario_index)%Z ->
     run = (Raise (ValueError (Msg "Trying to set an invalid scenario index")), s))
  /\ ((scenario_index < - Z.of_nat (length scenarios))%Z ->
        run = (Raise (IndexError (Msg "list index out of range")), stored))
  /\ (forall scenario : Scenario,
        (0 <= scenario_index)%Z ->
        nth_error scenarios (Z.to_nat scenario_index) = Some scenario ->
        decided_by_stage scenario)
  /\ (forall scenario : Scenario,
        (scenario_index < 0)%Z ->
        (0 <= scenario_index + Z.of_nat (length scenarios))%Z ->
        nth_error scenarios (Z.to_nat (scenario_index + Z.of_nat (length scenarios)))
        = Some scenario ->
        decided_by_stage scenario).
Proof.
  intros run stored decided_by_stage. subst run stored decided_by_stage. cbv beta.
  split; [|split; [|split]].
  - intros Hge. unfold set_scenario_and_stage, bindM.
    replace (scenario_index <? Z.of_nat (length scenarios))%Z with false
      by (symmetry; apply Z.ltb_ge; lia).
    reflexivity.
  - intros Hlow. unfold set_scenario_and_stage, bindM, modify, get, lift.
    replace (scenario_index <? Z.of_nat (length scenarios))%Z with true
      by (symmetry; apply Z.ltb_lt; lia).
    cbn [set_current_scenario_index current_scenario_index].
    rewrite (getitem_below scenarios scenario_index Hlow). reflexivity.
  - intros scenario Hi Hnth. pose proof (nth_error_lt_length _ _ _ Hi Hnth) as Hlt.
    apply set_scenario_and_stage_stored; [exact Hlt|]. now apply getitem_nonneg.
  - intros scenario Hneg Hlow Hnth.
    apply set_scenario_and_stage_stored; [lia|]. now apply getitem_negative.
Qed.

(** ** Elevations at a coordinate *)

Lemma existsb_Qeq_InA (r : Q) (l : list Q) :
  existsb (Qeq_bool r) l = true <-> InA Qeq r l.
Proof.
  rewrite existsb_exists, InA_alt. split; intros (y & H1 & H2); exists y.
  - split; [now apply Qeq_bool_iff | exact H1].
  - split; [exact H2 | now apply Qeq_bool_iff].
Qed.

Lemma unique_floats_NoDupA (zs : list Q) : NoDupA Qeq (unique_floats zs).
Proof.
  unfold unique_floats.
  assert (forall acc, NoDupA Qeq acc ->
            NoDupA Qeq
              (fold_left (fun result r =>
                            if existsb (Qeq_bool r) result then result else result ++ [r])
                         zs acc)) as Hgen.
  { induction zs as [|r zs IH]; intros acc Hacc; simpl; [exact Hacc|].
    apply IH. destruct (existsb (Qeq_bool r) acc) eqn:Hex; [exact Hacc|].
    apply NoDupA_app; [apply Q_Setoid | exact Hacc | |].
    - constructor; [intros Hin; inversion Hin | constructor].
    - intros y Hy Hyr. inversion Hyr as [? ? Heq|? ? Hnil]; subst; [|inversion Hnil].
      assert (existsb (Qeq_bool r) acc = true) as Htrue; [|congruence].
      apply existsb_Qeq_InA. apply (InA_eqA Q_Setoid (x := y)); assumption. }
  apply Hgen. constructor.
Qed.

Lemma insert_descending_In (z y : Q) (l : list Q) :
  In y (insert_descending z l) <-> y = z \/ In y l.
Proof.
  induction l as [|a l IH]; simpl; [intuition|].
  destruct (Qle_bool a z); simpl; [intuition|]. rewrite IH. intuition.
Qed.

Lemma sorted_descending_In (y : Q) (l : list Q) : In y (sorted_descending l) <-> In y l.
Proof.
  induction l as [|a l IH]; simpl; [tauto|]. rewrite insert_descending_In, IH. intuition.
Qed.

Lemma insert_descending_strict (z : Q) (l : list Q) :
  strictly_decreasing l -> ~ InA Qeq z l -> strictly_decreasing (insert_descending z l).
Proof.
  unfold strictly_decreasing. induction l as [|a l IH]; simpl; intros Hs Hnin.
  - constructor; constructor.
  - inversion Hs as [|? ? Hs' Hall]; subst.
    assert (~ a == z) as Hne by (intros Heq; apply Hnin; left; now symmetry).
    destruct (Qle_bool a z) eqn:Haz.
    + apply Qle_bool_iff in Haz. constructor; [exact Hs|].
      constructor; [lra|]. rewrite List.Forall_forall in *. intros y Hy.
      specialize (Hall y Hy). simpl in Hall. lra.
    + assert (z < a) as Hlt.
      { destruct (Qlt_le_dec z a) as [Hlt|Hle]; [exact Hlt|].
        apply Qle_bool_iff in Hle. congruence. }
      constructor.
      * apply IH; [exact Hs'|]. intros Hin. apply Hnin. now right.
      * rewrite List.Forall_forall in *. intros y Hy.
        apply insert_descending_In in Hy as [->|Hy]; [exact Hlt | now apply Hall].
Qed.

Lemma sorted_descending_strict (l : list Q) :
  NoDupA Qeq l -> strictly_decreasing (sorted_descending l).
Proof.
  induction l as [|a l IH]; simpl; intros Hnd; [constructor|].
  inversion Hnd as [|? ? Hnin Hnd']; subst.
  apply insert_descending_strict; [now apply IH|].
  intros Hin. apply Hnin. apply InA_alt in Hin as (y & Heq & Hy).
  apply InA_alt. exists y. split; [exact Heq | now apply sorted_descending_In].
Qed.

(** X12. The elevations [z_at] returns run from high to low and no two of
    them are equal: the first one, which the berm takes as the level of
    the toe, is the highest. *)
Theorem z_at_strictly_decreasing (ds : DStability) (x0 : pyfloat) :
  strictly_decreasing (z_at ds x0)
  /\ forall z0 rest, z_at ds x0 = z0 :: rest -> Forall (fun z => z < z0) rest.
Proof.
  assert (strictly_decreasing (z_at ds x0)) as Hs.
  { unfold z_at. destruct x0 as [|q]; [constructor|].
    apply sorted_descending_strict, unique_floats_NoDupA. }
  split; [exact Hs|]. intros z0 rest Heq. rewrite Heq in Hs.
  inversion Hs as [|? ? _ Hall]; subst. apply Forall_forall. intros z Hz.
  rewrite List.Forall_forall in Hall. apply Hall. now apply list_elem_of_In.
Qed.

Lemma z_at_layer_outside (x0 : Q) (pts : list Point) :
  (forall p, In p pts -> x0 < fst p) \/ (forall p, In p pts -> fst p < x0) ->
  z_at_layer x0 pts = [].
Proof.
  induction pts as [|p1 pts IH]; intros Hout; [reflexivity|].
  destruct pts as [|p2 pts]; [reflexivity|].
  cbn [z_at_layer].
  assert (Qle_bool (py_min2 (fst p1) (fst p2)) x0 && Qle_bool x0 (py_max2 (fst p1) (fst p2))
          = false) as ->.
  { apply andb_false_iff. unfold py_min2, py_max2. destruct Hout as [Hout|Hout].
    - left. apply not_true_iff_false. rewrite Qle_bool_iff.
      pose proof (Hout p1 (or_introl eq_refl)). pose proof (Hout p2 (or_intror (or_introl eq_refl))).
      destruct (Qlt_bool (fst p2) (fst p1)); lra.
    - right. apply not_true_iff_false. rewrite Qle_bool_iff.
      pose proof (Hout p1 (or_introl eq_refl)). pose proof (Hout p2 (or_intror (or_introl eq_refl))).
      destruct (Qlt_bool (fst p1) (fst p2)); lra. }
  simpl. apply IH. destruct Hout as [Hout|Hout]; [left|right]; intros p Hp; apply Hout;
    now right.
Qed.

(** At a coordinate left of every point of every layer, or right of every
    point of every layer, [z_at] finds no elevation. *)
Lemma z_at_finds_nothing_outside (ds : DStability) (x0 : Q) :
  (forall layer p, In layer (Layers ds) -> In p (Points layer) -> x0 < fst p)
  \/ (forall layer p, In layer (Layers ds) -> In p (Points layer) -> fst p < x0) ->
  z_at ds (Num x0) = [].
Proof.
  intros Hout. unfold z_at.
  assert (flat_map (fun layer => z_at_layer x0 (Points layer)) (Layers ds) = []) as ->;
    [|reflexivity].
  induction (Layers ds) as [|layer layers IH]; [reflexivity|]. simpl.
  rewrite z_at_layer_outside.
  - apply IH. destruct Hout as [Hout|Hout]; [left|right]; intros l p Hl Hp;
      apply (Hout l p); auto; now right.
  - destruct Hout as [Hout|Hout]; [left|right]; intros p Hp; apply (Hout layer p); auto;
      now left.
Qed.

(** ** The surface as a stretch of the boundary *)

Lemma surface_of_boundary_stretch (b s : list Point) :
  surface_of_boundary b = Ok s ->
  exists (i : nat) (tail : list Point),
    (i < length b)%nat /\ skipn i b ++ firstn i b = s ++ tail.
Proof.
  unfold surface_of_boundary.
  destruct (Qmin_list (map fst b)) as [l|e]; cbn [bind]; [|discriminate].
  destruct (last_item (sorted_by_z (List.filter (fun p => Qeq_bool (fst p) l) b)))
    as [topleft|e]; cbn [bind]; [|discriminate].
  destruct (Qmax_list (map fst b)) as [r|e]; cbn [bind]; [|discriminate].
  destruct (last_item (sorted_by_z (List.filter (fun p => Qeq_bool (fst p) r) b)))
    as [topright|e]; cbn [bind]; [|discriminate].
  destruct (index b topleft) as [i|e] eqn:Hi; cbn [bind]; [|discriminate].
  destruct (index (skipn i b ++ firstn i b) topright) as [j|e]; cbn [bind]; [|discriminate].
  intros [= <-]. exists i, (skipn (j + 1) (skipn i b ++ firstn i b)). split.
  - clear -Hi. revert i Hi. induction b as [|q b IH]; simpl; intros i Hi; [discriminate|].
    destruct (point_eqb q topleft); [inversion Hi; lia|].
    destruct (index b topleft) as [k|e] eqn:Hk; simpl in Hi; [|discriminate].
    inversion Hi; subst. specialize (IH k eq_refl). lia.
  - now rewrite firstn_skipn.
Qed.

(** X14. The surface that [_post_process] stores is a stretch of the
    boundary: turned to start at some point of it, the boundary begins with
    the surface, point for point in the same order. The surface has no
    more points than the boundary. *)
Theorem surface_is_stretch_of_boundary (exterior : list Point) (ds ds' : DStability) :
  _post_process exterior ds = Ok ds' ->
  (exists (i : nat) (tail : list Point),
     (i < length (boundary ds'))%nat
     /\ skipn i (boundary ds') ++ firstn i (boundary ds') = surface ds' ++ tail)
  /\ (length (surface ds') <= length (boundary ds'))%nat.
Proof.
  unfold _post_process. intros Hpost.
  destruct (surface_of_boundary (map round_point (removelast exterior))) as [s|e] eqn:Hs;
    cbn [bind] in Hpost; [|discriminate].
  inversion Hpost; subst. simpl.
  destruct (surface_of_boundary_stretch _ _ Hs) as (i & tail & Hi & Hrot).
  split; [eauto|].
  apply (f_equal (@length Point)) in Hrot. rewrite !length_app in Hrot.
  rewrite length_skipn, length_firstn in Hrot. lia.
Qed.

Lemma surface_is_stretch_of_boundary_witness :
  _post_process bank_ring bank = Ok bank
  /\ (exists (i : nat) (tail : list Point),
        (i < length (boundary bank))%nat
        /\ skipn i (boundary bank) ++ firstn i (boundary bank) = surface bank ++ tail)
  /\ (length (surface bank) <= length (boundary bank))%nat.
Proof.
  assert (_post_process bank_ring bank = Ok bank) as Hpost by (vm_compute; reflexivity).
  split; [exact Hpost|].
  exact (surface_is_stretch_of_boundary bank_ring bank bank Hpost).
Defined.

(** ** The berm: more of the construction *)

Lemma py_div_Ok (a b q : Q) : py_div a b = Ok q -> ~ b == 0 /\ q = a / b.
Proof.
  unfold py_div. destruct (Qeq_bool b 0) eqn:Hb; [discriminate|]. intros [= <-].
  split; [|reflexivity]. intros Hz. apply Qeq_bool_iff in Hz. congruence.
Qed.

Lemma point_in_app (p : Point) (l1 l2 : list Point) :
  point_in p l1 = true -> point_in p (l1 ++ l2) = true.
Proof. unfold point_in. rewrite existsb_app. intros ->. reflexivity. Qed.

Section BermMore.
Context `{Collaborators}.

(** X13. At a coordinate left of every point of every layer, or right of
    every point of every layer, [z_at] finds no elevation. A run that asks
    for a berm, width and height positive, with the toe at such a
    coordinate of the copy, or with a toe that is not a number, raises
    [IndexError] when it reads the level of the toe: after the copy and the
    ditch fill, before any berm layer. *)
Theorem z_at_outside_geometry (ds : DStability) (x0 : Q) :
  (forall layer p, In layer (Layers ds) -> In p (Points layer) -> x0 < fst p)
  \/ (forall layer p, In layer (Layers ds) -> In p (Points layer) -> fst p < x0) ->
  z_at ds (Num x0) = []
  /\ forall (self : AlgorithmBermWSBD.t) (r : loc) (h : heap) (d : DStability),
       h !! r = Some d ->
       after_ditch_fill self d ds ->
       Qle_bool (AlgorithmBermWSBD.width self) 0 || Qle_bool (AlgorithmBermWSBD.height self) 0
       = false ->
       AlgorithmBermWSBD.embankement_toe_land_side self = Num x0
       \/ AlgorithmBermWSBD.embankement_toe_land_side self = NaN ->
       AlgorithmBermWSBD._execute self r h
       = (Raise (IndexError (Msg "list index out of range")), <[fresh (dom h) := ds]> h).
Proof.
  intros Hout. pose proof (z_at_finds_nothing_outside ds x0 Hout) as Hz. split; [exact Hz|].
  intros self r h d Hd Hditch Hberm Htoe.
  rewrite (execute_builds_berm self r h d ds Hd Hditch Hberm).
  assert (AlgorithmBermWSBD.top_line self ds = Raise (IndexError (Msg "list index out of range")))
    as Htop.
  { destruct Htoe as [Htoe|Htoe]; unfold AlgorithmBermWSBD.top_line; rewrite Htoe;
      [now rewrite Hz | reflexivity]. }
  unfold AlgorithmBermWSBD.berm_points, AlgorithmBermWSBD.point_A. rewrite Htop. reflexivity.
Qed.

(** X16. The top slope is not checked: a run that asks for a berm, width
    and height positive, with a top slope of zero raises
    [ZeroDivisionError] when it computes the left end of the top line, as
    soon as the toe is a number at which [z_at] finds an elevation on a
    geometry that has points. The copy has been made and the ditch filled;
    no berm layer is inserted and nothing is returned. *)
Theorem execute_zero_top_slope (self : AlgorithmBermWSBD.t) (r : loc) (h : heap)
  (d d1 : DStability) (toe : Q) :
  h !! r = Some d ->
  after_ditch_fill self d d1 ->
  Qle_bool (AlgorithmBermWSBD.width self) 0 || Qle_bool (AlgorithmBermWSBD.height self) 0
  = false ->
  AlgorithmBermWSBD.embankement_toe_land_side self = Num toe ->
  z_at d1 (Num toe) <> [] ->
  points d1 <> [] ->
  Qeq_bool (AlgorithmBermWSBD.slope_top self) 0 = true ->
  AlgorithmBermWSBD._execute self r h = (Raise ZeroDivisionError, <[fresh (dom h) := d1]> h).
Proof.
  intros Hd Hditch Hberm Htoe Hz Hpts Hslope.
  rewrite (execute_builds_berm self r h d d1 Hd Hditch Hberm).
  assert (AlgorithmBermWSBD.top_line self d1 = Raise ZeroDivisionError) as Htop.
  { unfold AlgorithmBermWSBD.top_line. rewrite Htoe.
    destruct (z_at d1 (Num toe)) as [|z zs]; [contradiction|]. cbn [first_item bind].
    unfold left. destruct (points d1) as [|p pts]; [contradiction|].
    cbn [map Qmin_list bind]. unfold py_div. rewrite Hslope. reflexivity. }
  unfold AlgorithmBermWSBD.berm_points, AlgorithmBermWSBD.point_A. rewrite Htop. reflexivity.
Qed.

(** X17. When the points of the berm are found, pB lies the width to the
    right of pA and the width over the top slope below it, and the list of
    intersections is not empty: it holds a point equal to the rounded pA or
    starts with pA itself, not rounded, and it holds a point equal to the
    rounded pC or ends with pC itself. *)
Theorem berm_points_keep_pA_and_pC (self : AlgorithmBermWSBD.t) (ds : DStability)
  (pA pB pC : Point) (intersections : list Point) :
  AlgorithmBermWSBD.berm_points self ds = Ok (pA, pB, pC, intersections) ->
  AlgorithmBermWSBD.point_A self ds = Ok pA
  /\ pB = (fst pA + AlgorithmBermWSBD.width self,
           snd pA - AlgorithmBermWSBD.width self / AlgorithmBermWSBD.slope_top self)
  /\ intersections <> []
  /\ (point_in (round_point pA) intersections = true
      \/ exists rest, intersections = pA :: rest)
  /\ (point_in (round_point pC) intersections = true
      \/ exists front, intersections = front ++ [pC]).
Proof.
  unfold AlgorithmBermWSBD.berm_points.
  destruct (AlgorithmBermWSBD.point_A self ds) as [a|e]; cbn [bind]; [|discriminate].
  destruct (py_div (AlgorithmBermWSBD.width self) (AlgorithmBermWSBD.slope_top self))
    as [q|e] eqn:Hq; cbn [bind]; [|discriminate].
  destruct (right ds) as [r|e]; cbn [bind]; [|discriminate].
  destruct (py_div _ (AlgorithmBermWSBD.slope_bottom self)) as [q5|e]; cbn [bind];
    [|discriminate].
  destruct (length _ =? 0)%nat; [discriminate|].
  destruct (last_item _) as [c|e]; cbn [bind]; [|discriminate].
  apply py_div_Ok in Hq as [_ ->].
  set (ints0 := map round_point _).
  intros [= <- <- <- <-]. split; [reflexivity|]. split; [reflexivity|].
  destruct (point_in (round_point a) ints0) eqn:HA; cbn [negb].
  - destruct (point_in (round_point c) ints0) eqn:HC; cbn [negb].
    + split; [|split; [now left | now left]].
      intros Hnil. rewrite Hnil in HA. discriminate.
    + split; [|split].
      * intros Hnil. apply app_eq_nil in Hnil as [_ Hnil]. discriminate.
      * left. now apply point_in_app.
      * right. now exists ints0.
  - destruct (point_in (round_point c) (a :: ints0)) eqn:HC; cbn [negb].
    + split; [discriminate|]. split; [right; now exists ints0 | now left].
    + split; [discriminate|]. split; [right|right].
      * now exists (ints0 ++ [c]).
      * now exists (a :: ints0).
Qed.

(** X18. A run that asks for no berm (width or height not positive) and
    for no ditch fill returns a new cross-section that is an exact copy of
    the input: no layer is added. *)
Theorem execute_without_berm_and_ditch_copies (self : AlgorithmBermWSBD.t) (r : loc)
  (h : heap) (d : DStability) :
  h !! r = Some d ->
  AlgorithmBermWSBD.fill_ditch self = false ->
  Qle_bool (AlgorithmBermWSBD.width self) 0 || Qle_bool (AlgorithmBermWSBD.height self) 0
  = true ->
  AlgorithmBermWSBD._execute self r h = (Ok (fresh (dom h)), <[fresh (dom h) := d]> h).
Proof.
  intros Hd Hfill Hnone. unfold AlgorithmBermWSBD._execute, bindM, deepcopy.
  rewrite Hd, Hfill, Hnone. reflexivity.
Qed.

(** X19. A run that asks for the ditch fill only adds exactly one layer to
    the copy: the polygon from the surface point nearest to the embankment
    side of the ditch to the one nearest to its land side and back along
    the surface of the input, of the ditch soil, labelled "ditch fill". *)
Theorem execute_fills_ditch_only (self : AlgorithmBermWSBD.t) (r : loc) (h : heap)
  (d d' : DStability) (fp1 fp2 : Point) :
  h !! r = Some d ->
  AlgorithmBermWSBD.fill_ditch self = true ->
  Qle_bool (AlgorithmBermWSBD.width self) 0 || Qle_bool (AlgorithmBermWSBD.height self) 0
  = true ->
  get_closest_point_from_x d (AlgorithmBermWSBD.ditch_embankement_side self) = Ok fp1 ->
  get_closest_point_from_x d (AlgorithmBermWSBD.ditch_land_side self) = Ok fp2 ->
  add_layer d (AlgorithmBermWSBD.ditch_fill_points d fp1 fp2)
    (AlgorithmBermWSBD.ditch_soilcode self) (Some "ditch fill"%string) = Ok d' ->
  AlgorithmBermWSBD._execute self r h = (Ok (fresh (dom h)), <[fresh (dom h) := d']> h).
Proof.
  intros Hd Hfill Hnone Hfp1 Hfp2 Hadd.
  assert (fresh (dom h) <> r) as Hne.
  { intros Heq. apply (is_fresh (dom h)). rewrite Heq. apply elem_of_dom. eauto. }
  unfold AlgorithmBermWSBD._execute, bindM, deepcopy. rewrite Hd, Hfill.
  unfold AlgorithmBermWSBD.fill_the_ditch, AlgorithmBermWSBD.add_layer_at, bindM, read, lift,
    write.
  rewrite lookup_insert_ne by exact Hne. rewrite Hd, Hfp1, Hfp2.
  rewrite lookup_insert_eq, Hadd, Hnone, insert_insert_eq. reflexivity.
Qed.

End BermMore.

Lemma z_at_outside_geometry_witness :
  z_at levee (Num 41) = []
  /\ AlgorithmBermWSBD._execute (berm 6 2 (Num 41)) 1%positive levee_store
     = (Raise (IndexError (Msg "list index out of range")),
        <[fresh (dom levee_store) := levee]> levee_store).
Proof.
  assert ((forall layer p, In layer (Layers levee) -> In p (Points layer) -> 41 < fst p)
          \/ (forall layer p, In layer (Layers levee) -> In p (Points layer) -> fst p < 41))
    as Hout.
  { right. intros layer p [<-|[]] Hp. simpl in Hp.
    repeat (destruct Hp as [<-|Hp]; [reflexivity|]). destruct Hp. }
  destruct (@z_at_outside_geometry reference_collaborators levee 41 Hout) as [Hz Hrun].
  split; [exact Hz|].
  apply (Hrun (berm 6 2 (Num 41)) 1%positive levee_store levee);
    [reflexivity | reflexivity | reflexivity | left; reflexivity].
Defined.

Lemma execute_zero_top_slope_witness :
  AlgorithmBermWSBD._execute berm_without_top_slope 1%positive levee_store
  = (Raise ZeroDivisionError, <[fresh (dom levee_store) := levee]> levee_store).
Proof.
  apply (@execute_zero_top_slope reference_collaborators berm_without_top_slope 1%positive
           levee_store levee levee 24);
    [reflexivity | reflexivity | reflexivity | reflexivity
    | vm_compute; discriminate | vm_compute; discriminate | reflexivity].
Defined.


Lemma execute_without_berm_and_ditch_copies_witness :
  AlgorithmBermWSBD._execute (berm 0 0 NaN) 1%positive levee_store
  = (Ok (fresh (dom levee_store)), <[fresh (dom levee_store) := levee]> levee_store).
Proof.
  apply (@execute_without_berm_and_ditch_copies reference_collaborators (berm 0 0 NaN)
           1%positive levee_store levee); reflexivity.
Defined.

Lemma execute_fills_ditch_only_witness :
  exists d',
    Layers d'
    = Layers levee_with_ditch
      ++ [mkLayer [(30, 0); (34, 0); (34, 0); (33, -1); (31, -1); (30, 0)]
            (Some "sand"%string) (Some "ditch fill"%string)]
    /\ AlgorithmBermWSBD._execute fill_ditch_only 1%positive {[ 1%positive := levee_with_ditch ]}
       = (Ok (fresh (dom ({[ 1%positive := levee_with_ditch ]} : heap))),
          <[fresh (dom ({[ 1%positive := levee_with_ditch ]} : heap)) := d']>
            {[ 1%positive := levee_with_ditch ]}).
Proof.
  eexists. split; [|
    apply (@execute_fills_ditch_only reference_collaborators fill_ditch_only 1%positive
             {[ 1%positive := levee_with_ditch ]} levee_with_ditch _ (30, 0) (34, 0));
    [reflexivity | reflexivity | reflexivity | vm_compute; reflexivity
    | vm_compute; reflexivity | reflexivity]].
  vm_compute. reflexivity.
Defined.

Lemma berm_points_keep_pA_and_pC_witness :
  AlgorithmBermWSBD.berm_points (berm 6 2 (Num 24)) levee
  = Ok ((19, 5 # 2), (25, 38 # 20), (269 # 10, 0), [(19, 5 # 2); (269 # 10, 0)])
  /\ AlgorithmBermWSBD.point_A (berm 6 2 (Num 24)) levee = Ok (19, 5 # 2)
  /\ point_in (round_point (19, 5 # 2)) [(19, 5 # 2); (269 # 10, 0)] = true
  /\ point_in (round_point (269 # 10, 0)) [(19, 5 # 2); (269 # 10, 0)] = true.
Proof.
  assert (AlgorithmBermWSBD.berm_points (berm 6 2 (Num 24)) levee
          = Ok ((19, 5 # 2), (25, 38 # 20), (269 # 10, 0), [(19, 5 # 2); (269 # 10, 0)]))
    as Hpts by (vm_compute; reflexivity).
  split; [exact Hpts|].
  destruct (@berm_points_keep_pA_and_pC reference_collaborators _ _ _ _ _ _ Hpts)
    as (HA & _ & _ & _ & _).
  split; [exact HA|]. split; reflexivity.
Defined.

(** X20. When the input check of the berm passes, the settings exist and
    the ditch coordinates of the algorithm are the ones of the first
    settings entry; the parameters of the algorithm are as they were; if a
    berm is asked for, its soil is in the catalogue and the toe coordinate
    is the one of the settings and is a number, otherwise the toe
    coordinate is untouched; if the ditch is to be filled, both ditch
    coordinates are numbers and the ditch soil is given and in the
    catalogue. *)
Theorem berm_check_input_passed (self self' : AlgorithmBermWSBD.t) (ds : DStability) :
  AlgorithmBermWSBD._check_input ds self = (Ok tt, self') ->
  exists settings rest,
    waternetcreatorsettings ds = settings :: rest
    /\ AlgorithmBermWSBD.ditch_embankement_side self'
       = DitchEmbankmentSide (DitchCharacteristics settings)
    /\ AlgorithmBermWSBD.ditch_land_side self' = DitchLandSide (DitchCharacteristics settings)
    /\ (AlgorithmBermWSBD.soilcode self', AlgorithmBermWSBD.slope_top self',
        AlgorithmBermWSBD.slope_bottom self', AlgorithmBermWSBD.width self',
        AlgorithmBermWSBD.height self', AlgorithmBermWSBD.fill_ditch self',
        AlgorithmBermWSBD.ditch_soilcode self')
       = (AlgorithmBermWSBD.soilcode self, AlgorithmBermWSBD.slope_top self,
          AlgorithmBermWSBD.slope_bottom self, AlgorithmBermWSBD.width self,
          AlgorithmBermWSBD.height self, AlgorithmBermWSBD.fill_ditch self,
          AlgorithmBermWSBD.ditch_soilcode self)
    /\ (if Qlt_bool 0 (AlgorithmBermWSBD.width self) && Qlt_bool 0 (AlgorithmBermWSBD.height self)
        then has_soilcode ds (AlgorithmBermWSBD.soilcode self) = true
             /\ AlgorithmBermWSBD.embankement_toe_land_side self'
                = EmbankmentToeLandSide (EmbankmentCharacteristics settings)
             /\ isnan (AlgorithmBermWSBD.embankement_toe_land_side self') = false
        else AlgorithmBermWSBD.embankement_toe_land_side self'
             = AlgorithmBermWSBD.embankement_toe_land_side self)
    /\ (if AlgorithmBermWSBD.fill_ditch self
        then isnan (AlgorithmBermWSBD.ditch_embankement_side self') = false
             /\ isnan (AlgorithmBermWSBD.ditch_land_side self') = false
             /\ exists code, AlgorithmBermWSBD.ditch_soilcode self = Some code
                             /\ has_soilcode ds code = true
        else True).
Proof.
  unfold AlgorithmBermWSBD._check_input, bindM, get, modify, lift, raise, ret.
  destruct self as [code st sb w ht fd dcode toe de dl]. cbn -[Qlt_bool has_soilcode String.append].
  destruct (waternetcreatorsettings ds) as [|settings rest].
  { destruct (Qlt_bool 0 w && Qlt_bool 0 ht); cbn -[has_soilcode String.append];
      [destruct (has_soilcode ds code)|]; discriminate. }
  cbn -[Qlt_bool has_soilcode String.append]. intros Hrun. exists settings, rest.
  split; [reflexivity|].
  destruct (Qlt_bool 0 w && Qlt_bool 0 ht); cbn -[has_soilcode String.append] in Hrun.
  - destruct (has_soilcode ds code) eqn:Hcode; cbn -[has_soilcode String.append] in Hrun;
      [|discriminate].
    destruct (isnan (EmbankmentToeLandSide (EmbankmentCharacteristics settings))) eqn:Htoe;
      cbn -[has_soilcode String.append] in Hrun; [discriminate|].
    destruct fd; cbn -[has_soilcode String.append] in Hrun.
    + destruct (isnan (DitchEmbankmentSide (DitchCharacteristics settings))) eqn:H1;
        cbn -[has_soilcode String.append] in Hrun; [discriminate|].
      destruct (isnan (DitchLandSide (DitchCharacteristics settings))) eqn:H2;
        cbn -[has_soilcode String.append] in Hrun; [discriminate|].
      destruct dcode as [c|]; [|discriminate].
      destruct (has_soilcode ds c) eqn:Hc; cbn -[has_soilcode String.append] in Hrun;
        [|discriminate].
      inversion Hrun; subst. cbn. repeat split; eauto.
    + inversion Hrun; subst. cbn. repeat split; auto.
  - destruct fd; cbn -[has_soilcode String.append] in Hrun.
    + destruct (isnan (DitchEmbankmentSide (DitchCharacteristics settings))) eqn:H1;
        cbn -[has_soilcode String.append] in Hrun; [discriminate|].
      destruct (isnan (DitchLandSide (DitchCharacteristics settings))) eqn:H2;
        cbn -[has_soilcode String.append] in Hrun; [discriminate|].
      destruct dcode as [c|]; [|discriminate].
      destruct (has_soilcode ds c) eqn:Hc; cbn -[has_soilcode String.append] in Hrun;
        [|discriminate].
      inversion Hrun; subst. cbn. repeat split; eauto.
    + inversion Hrun; subst. cbn. repeat split; auto.
Qed.

Lemma berm_check_input_passed_witness :
  AlgorithmBermWSBD._check_input levee (berm 6 2 NaN) = (Ok tt, berm 6 2 (Num 24))
  /\ has_soilcode levee "clay" = true
  /\ isnan (AlgorithmBermWSBD.embankement_toe_land_side (berm 6 2 (Num 24))) = false.
Proof.
  assert (AlgorithmBermWSBD._check_input levee (berm 6 2 NaN) = (Ok tt, berm 6 2 (Num 24)))
    as Hrun by (vm_compute; reflexivity).
  split; [exact Hrun|].
  destruct (berm_check_input_passed _ _ _ Hrun) as (settings & rest & _ & _ & _ & _ & Hberm & _).
  destruct Hberm as (Hcode & _ & Htoe). split; [exact Hcode | exact Htoe].
Defined.

(** X21. When the left point of a pair is not right of the right point,
    every vertex of the layer built on the pair has its x between the x of
    the two points. *)
Theorem layer_points_within_pair (ds : DStability) (pB p1 p2 : Point) :
  fst p1 <= fst p2 ->
  Forall (fun q => fst p1 <= fst q /\ fst q <= fst p2)
    (AlgorithmBermWSBD.layer_points ds pB p1 p2).
Proof.
  intros Hle. unfold AlgorithmBermWSBD.layer_points. apply Forall_app. split.
  - destruct (Qlt_bool (fst p1) (fst pB) && Qlt_bool (fst pB) (fst p2)) eqn:HB.
    + apply andb_true_iff in HB as [H1 H2]. apply Qlt_bool_iff in H1, H2.
      repeat constructor; lra.
    + repeat constructor; lra.
  - apply Forall_forall. intros q Hq. apply list_elem_of_In, in_rev in Hq.
    apply surface_points_between_In in Hq as (_ & H1 & H2). auto.
Qed.

Lemma layer_points_within_pair_witness :
  19 <= 269 # 10
  /\ Forall (fun q => 19 <= fst q /\ fst q <= 269 # 10)
       (AlgorithmBermWSBD.layer_points levee (25, 38 # 20) (19, 5 # 2) (269 # 10, 0)).
Proof.
  assert (19 <= 269 # 10) as Hle by (vm_compute; discriminate).
  split; [exact Hle|].
  exact (layer_points_within_pair levee (25, 38 # 20) (19, 5 # 2) (269 # 10, 0) Hle).
Defined.

(** ** The phreatic line: the passes over the points *)

Lemma fdiv_positive (a : pyfloat) (b : Q) : 0 < b -> exists q, fdiv a (Num b) = Ok q.
Proof.
  intros Hb. unfold fdiv. destruct (Qeq_bool b 0) eqn:Heq; [|eauto].
  apply Qeq_bool_iff in Heq. lra.
Qed.

Lemma between_points_total (p1 p2 : AlgorithmPhreaticLine.plpoint) (surface : list Point) :
  exists between,
    AlgorithmPhreaticLine.between_points p1 p2 surface = Ok between
    /\ Forall (fun q => exists p, In p surface
                                  /\ AlgorithmPhreaticLine.px q = Num (fst p)
                                  /\ flt (AlgorithmPhreaticLine.px p1) (Num (fst p)) = true
                                  /\ flt (Num (fst p)) (AlgorithmPhreaticLine.px p2) = true)
         between.
Proof.
  induction surface as [|p surface (between & IH & Hall)].
  - exists []. split; [reflexivity | constructor].
  - cbn [AlgorithmPhreaticLine.between_points]. rewrite IH.
    assert (Forall (fun q => exists p0, In p0 (p :: surface)
                                        /\ AlgorithmPhreaticLine.px q = Num (fst p0)
                                        /\ flt (AlgorithmPhreaticLine.px p1) (Num (fst p0)) = true
                                        /\ flt (Num (fst p0)) (AlgorithmPhreaticLine.px p2) = true)
              between) as Hall'.
    { eapply Forall_impl; [exact Hall|]. intros q (p0 & Hp0 & Hrest). exists p0.
      split; [now right | exact Hrest]. }
    destruct (flt (AlgorithmPhreaticLine.px p1) (Num (fst p))
              && flt (Num (fst p)) (AlgorithmPhreaticLine.px p2)) eqn:Hrange.
    + apply andb_true_iff in Hrange as [H1 H2].
      unfold AlgorithmPhreaticLine.interpolate.
      assert (exists q, fdiv (fsub (Num (fst p)) (fst (snd p1)))
                          (fsub (fst (snd p2)) (fst (snd p1))) = Ok q) as [q ->].
      { unfold AlgorithmPhreaticLine.px in H1, H2.
        destruct (fst (snd p1)) as [|a]; [discriminate|].
        destruct (fst (snd p2)) as [|b]; [discriminate|].
        simpl in H1, H2. apply Qlt_bool_iff in H1, H2. apply fdiv_positive. lra. }
      cbn [bind]. eexists. split; [reflexivity|]. constructor; [|exact Hall'].
      exists p. split; [now left|]. split; [reflexivity|]. auto.
    + cbn [bind]. exists between. split; [reflexivity | exact Hall'].
Qed.

Lemma insert_surface_points_step (surface : list Point)
  (p1 p2 : AlgorithmPhreaticLine.plpoint) (rest : list AlgorithmPhreaticLine.plpoint) :
  AlgorithmPhreaticLine.insert_surface_points surface (p1 :: p2 :: rest)
  = let* between := AlgorithmPhreaticLine.between_points p1 p2 surface in
    let* tail := match rest with
                 | [] => Ok [p2]
                 | _ => AlgorithmPhreaticLine.insert_surface_points surface (p2 :: rest)
                 end in
    Ok (p1 :: between ++ tail).
Proof. reflexivity. Qed.

(** X22. The pass that puts the surface points on the line between the
    control points cannot fail: it never divides by zero. For two control
    points or more its result keeps all of them, in their order, and every
    other point of the result stands at the x of a surface point that lies
    strictly between two control points that follow each other. *)
Theorem insert_surface_points_total (surface : list Point)
  (cdef : list AlgorithmPhreaticLine.plpoint) :
  exists out,
    AlgorithmPhreaticLine.insert_surface_points surface cdef = Ok out
    /\ ((2 <= length cdef)%nat -> cdef `sublist_of` out)
    /\ Forall (fun q => In q cdef
                        \/ exists p, In p surface /\ AlgorithmPhreaticLine.px q = Num (fst p))
         out.
Proof.
  induction cdef as [|p1 cdef IH].
  - exists []. split; [reflexivity|]. split; [simpl; lia | constructor].
  - destruct cdef as [|p2 rest].
    + exists []. split; [reflexivity|]. split; [simpl; lia | constructor].
    + rewrite insert_surface_points_step.
      destruct (between_points_total p1 p2 surface) as (between & -> & Hbetween).
      cbn [bind].
      assert (Forall (fun q => In q (p1 :: p2 :: rest)
                               \/ exists p, In p surface
                                            /\ AlgorithmPhreaticLine.px q = Num (fst p))
                between) as Hb.
      { eapply Forall_impl; [exact Hbetween|]. intros q (p & Hp & Hx & _). right. eauto. }
      destruct rest as [|p3 rest].
      * cbn [bind]. eexists. split; [reflexivity|]. split.
        -- intros _. apply sublist_skip. apply sublist_inserts_l. reflexivity.
        -- constructor; [left; now left|]. apply Forall_app. split; [exact Hb|].
           constructor; [left; right; now left | constructor].
      * destruct IH as (out & -> & Hsub & Hall). cbn [bind].
        eexists. split; [reflexivity|]. split.
        -- intros _. apply sublist_skip. apply sublist_inserts_l. apply Hsub. simpl. lia.
        -- constructor; [left; now left|]. apply Forall_app. split; [exact Hb|].
           eapply Forall_impl; [exact Hall|]. intros q [Hq|Hq]; [left; now right | now right].
Qed.

Section PhreaticMore.
Context `{Collaborators}.

(** X23. The height check changes no point: when no point of the line has
    its x right of C and not right of F, the line comes back as it was;
    when some point has, the check raises [TypeError], because it subtracts
    the surface offset from the list that [z_at] returns. *)
Theorem check_heights_unchanged_or_TypeError (self : AlgorithmPhreaticLine.t)
  (ds : DStability) (Cx Fx : pyfloat) (previous : option AlgorithmPhreaticLine.plpoint)
  (plpoints : list AlgorithmPhreaticLine.plpoint) :
  AlgorithmPhreaticLine.check_heights self ds Cx Fx previous plpoints
  = if existsb (in_checked_range Cx Fx) plpoints
    then Raise (TypeError (Msg "unsupported operand type(s) for -: 'list' and 'float'"))
    else Ok plpoints.
Proof.
  revert previous. induction plpoints as [|p plpoints IH]; intros previous; [reflexivity|].
  cbn [AlgorithmPhreaticLine.check_heights existsb].
  unfold AlgorithmPhreaticLine.check_height, in_checked_range at 1.
  destruct (fgt (AlgorithmPhreaticLine.px p) Cx && fle (AlgorithmPhreaticLine.px p) Fx).
  - reflexivity.
  - cbn [bind orb]. rewrite IH. destruct (existsb (in_checked_range Cx Fx) plpoints);
      reflexivity.
Qed.

Lemma clay_layout_raises (self : AlgorithmPhreaticLine.t) (ds : DStability) :
  exists e, AlgorithmPhreaticLine._execute_clay_layout self ds = Raise e.
Proof.
  unfold AlgorithmPhreaticLine._execute_clay_layout.
  destruct (AlgorithmPhreaticLine.point_A self ds) as [A|e]; cbn [bind]; [|eauto].
  destruct (getattr_x (get_characteristic_point ds EMBANKEMENT_TOP_LAND_SIDE)) as [Cx|e];
    cbn [bind]; [|eauto].
  destruct (getattr_x (get_characteristic_point ds EMBANKEMENT_TOE_LAND_SIDE)) as [Ex|e];
    cbn [bind]; eauto.
Qed.

Lemma sand_on_clay_layout_raises (self : AlgorithmPhreaticLine.t) (ds : DStability) :
  exists e, AlgorithmPhreaticLine._execute_sand_on_clay_layout self ds = Raise e.
Proof.
  unfold AlgorithmPhreaticLine._execute_sand_on_clay_layout.
  destruct (AlgorithmPhreaticLine.point_A self ds) as [A|e]; cbn [bind]; [|eauto].
  destruct (getattr_x (get_characteristic_point ds EMBANKEMENT_TOE_WATER_SIDE)) as [px|e];
    cbn [bind]; eauto.
Qed.

(** X24. The phreatic-line algorithm never returns a cross-section: for
    every store, reference, layout and parameter its run raises, and the
    store afterwards is the store before with, when the reference is in
    use, an unchanged copy of the input added; no head line is written. *)
Theorem phreatic_execute_always_raises (self : AlgorithmPhreaticLine.t) (r : loc) (h : heap) :
  (exists e, fst (AlgorithmPhreaticLine._execute self r h) = Raise e)
  /\ snd (AlgorithmPhreaticLine._execute self r h)
     = match h !! r with
       | Some d => <[fresh (dom h) := d]> h
       | None => h
       end.
Proof.
  unfold AlgorithmPhreaticLine._execute, bindM, deepcopy.
  destruct (h !! r) as [d|] eqn:Hr; [|split; [eexists|]; reflexivity].
  unfold read. rewrite lookup_insert_eq. unfold lift.
  assert (exists e, AlgorithmPhreaticLine.phreatic_line_points self d = Raise e) as [e ->].
  { unfold AlgorithmPhreaticLine.phreatic_line_points.
    destruct (material_layout d).
    - destruct (clay_layout_raises self d) as [e ->]. eauto.
    - destruct (clay_layout_raises self d) as [e ->]. eauto.
    - destruct (sand_on_clay_layout_raises self d) as [e ->]. eauto.
    - eauto. }
  split; [eexists|]; reflexivity.
Qed.

End PhreaticMore.
